(** * xcresult-to-junit: the converter of [converter.go]

    A shallow embedding of the conversion pipeline
    (JSON test-result tree -> suite mapping -> JUnit report -> XML document)
    together with the properties its specification states about it.

    Conventions.
    - Go [string]s are byte sequences: Rocq [string]s (lists of [ascii]).
    - Go [float64] is IEEE-754 binary64: [spec_float] at precision 53 and
      maximal exponent 1024, with the operations of [SpecFloat].
    - Go [int] is a 64-bit two's complement integer: a [Z] wrapped by [wrap_int].
    - The suite mapping [map[string]*JUnitTestSuite] is a [gmap]; a write
      through one of its pointers is an insertion at the suite's key.
    - What the Go runtime and standard library provide ([time.Now],
      [strconv.ParseFloat], [strconv.FormatFloat], [xml.EscapeText],
      [sort.Slice], [json.Unmarshal], the order of [range] over a map) is a
      parameter of the development; section [Library models] gives an
      executable model of each, used to run the converter on examples. *)

From Stdlib Require Import ZArith String Ascii List Sorted Permutation Lia.
From Stdlib Require Import Floats.SpecFloat.
From stdpp Require Import base option list gmap strings sorting pretty.

(** ** Machine numbers *)

Definition float64 : Type := spec_float.

Module f64.
Definition prec : Z := 53.
Definition emax : Z := 1024.
Definition zero : float64 := S754_zero false.
(** 0.5 = 2^52 * 2^-53 *)
Definition half : float64 := S754_finite false 4503599627370496 (-53).
Definition add : float64 → float64 → float64 := SFadd prec emax.
Definition inf (neg : bool) : float64 := S754_infinity neg.
End f64.

(** [int] arithmetic wraps around at 64 bits. *)
Definition wrap_int (z : Z) : Z :=
  ((z + 2 ^ 63) mod 2 ^ 64 - 2 ^ 63)%Z.

(** ** The functions of package [strings] the converter calls *)

Module strings.

(** [strings.Contains(s, substr)]: some suffix of [s] starts with [substr]. *)
Fixpoint Contains (s substr : string) : bool :=
  if String.prefix substr s then true
  else match s with
       | EmptyString => false
       | String _ s' => Contains s' substr
       end.

(** [strings.Split(s, sep)] for a separator of one byte, which is the only
    way the converter calls it ([sep = "/"]).  The result is never empty. *)
Fixpoint Split (s : string) (sep : ascii) : list string :=
  match s with
  | EmptyString => [EmptyString]
  | String c s' =>
      if Ascii.eqb c sep then EmptyString :: Split s' sep
      else match Split s' sep with
           | p :: ps => String c p :: ps
           | [] => [String c EmptyString]
           end
  end.

Definition HasSuffix (s suffix : string) : bool :=
  (String.length suffix <=? String.length s)%nat
  && String.eqb
       (substring (String.length s - String.length suffix)
                  (String.length suffix) s)
       suffix.

(** [strings.TrimSuffix(s, suffix)] removes one trailing [suffix], if any. *)
Definition TrimSuffix (s suffix : string) : string :=
  if HasSuffix s suffix
  then substring 0 (String.length s - String.length suffix) s
  else s.

End strings.

(** ** Input model: the decoded JSON tree *)

(** [TestNode].  The fields [SummaryRef] and [ActivitySummaries] are decoded by
    the Go code but never read by the converter; they are left out. *)
Module TestNode.
#[local] Unset Elimination Schemes.
Inductive t : Type :=
  Make { Children : list t;
         Name : string;
         NodeType : string;
         Duration : string;
         Result : string;
         NodeIdentifier : string }.

(** Induction over the tree: the children of a node satisfy the property. *)
Fixpoint t_ind (P : t → Prop)
    (IH : ∀ children name nodeType duration result nodeIdentifier,
        Forall P children →
        P (Make children name nodeType duration result nodeIdentifier))
    (node : t) {struct node} : P node :=
  match node with
  | Make children name nodeType duration result nodeIdentifier =>
      IH children name nodeType duration result nodeIdentifier
         ((fix all (l : list t) : Forall P l :=
             match l with
             | [] => @List.Forall_nil t P
             | x :: l' => @List.Forall_cons t P x l' (t_ind P IH x) (all l')
             end) children)
  end.
End TestNode.

(** [XCResultRoot]; its [Devices] are never read by the converter. *)
Module XCResultRoot.
Record t : Type := Make { TestNodes : list TestNode.t }.
End XCResultRoot.

(** ** Output model: the JUnit report *)

Module JUnitFailure.
Record t : Type :=
  Make { Message : string; Type' : string; Content : string }.
End JUnitFailure.

Module JUnitSkipped.
Record t : Type := Make { Message : string }.
End JUnitSkipped.

Module JUnitTestCase.
Record t : Type :=
  Make { Name : string;
         Classname : string;
         Time : float64;
         Failure : option JUnitFailure.t;
         Skipped : option JUnitSkipped.t }.
End JUnitTestCase.

Module JUnitTestSuite.
Record t : Type :=
  Make { Name : string;
         Tests : Z;
         Failures : Z;
         Errors : Z;
         Time : float64;
         Timestamp : string;
         TestCases : list JUnitTestCase.t }.
End JUnitTestSuite.

Module JUnitTestSuites.
Record t : Type := Make { TestSuites : list JUnitTestSuite.t }.
End JUnitTestSuites.

(** ** Errors of [strconv] *)

Inductive NumError : Type := ErrSyntax | ErrRange.

(** ** Library models

    Executable models of the library functions the converter relies on.  The
    theorems below are stated for arbitrary functions in their place; these
    models serve to run the converter on concrete inputs. *)

Module strconv.
Local Open Scope Z_scope.

(** The binary64 number nearest to [mant * 10 ^ e10] (ties to even). *)
Definition decimalToFloat (neg : bool) (mant e10 : Z) : float64 :=
  if mant =? 0 then S754_zero neg
  else if 0 <=? e10 then
    binary_normalize f64.prec f64.emax
      (if neg then - (mant * 10 ^ e10) else mant * 10 ^ e10) 0 false
  else
    let '(q, e', l) :=
      SFdiv_core_binary f64.prec f64.emax mant 0 (10 ^ (- e10)) 0 in
    binary_round_aux f64.prec f64.emax neg q e' l.

Definition digitOf (c : ascii) : option Z :=
  let n := Z.of_N (N_of_ascii c) in
  if (48 <=? n) && (n <=? 57) then Some (n - 48) else None.

(** The digits of a mantissa, with at most one point among them: the value
    of the digits, how many there are, how many follow the point, and what
    is left of the input. *)
Fixpoint readDigits (s : string) (sawdot : bool) (mant : Z) (nd : nat)
    (frac : Z) : Z * nat * Z * string :=
  match s with
  | EmptyString => (mant, nd, frac, s)
  | String c s' =>
      match digitOf c with
      | Some d =>
          readDigits s' sawdot (10 * mant + d) (S nd)
                     (if sawdot then frac + 1 else frac)
      | None =>
          if Ascii.eqb c "." && negb sawdot
          then readDigits s' true mant nd frac
          else (mant, nd, frac, s)
      end
  end.

Definition readSign (s : string) : bool * string :=
  match s with
  | String "+" s' => (false, s')
  | String "-" s' => (true, s')
  | _ => (false, s)
  end.

(** The exponent part: nothing, or [e] or [E], a sign and digits up to the
    end of the input. *)
Definition readExponent (s : string) : option Z :=
  match s with
  | EmptyString => Some 0
  | String c s' =>
      if Ascii.eqb c "e" || Ascii.eqb c "E" then
        let '(eneg, s'') := readSign s' in
        match readDigits s'' true 0 0%nat 0 with
        | (e, S _, _, EmptyString) => Some (if eneg then - e else e)
        | _ => None
        end
      else None
  end.

(** [strconv.ParseFloat(s, 64)] on decimal literals
    (sign, digits with an optional point, optional exponent).  A malformed
    input gives [(0, ErrSyntax)], a magnitude beyond the largest float
    gives [(±Inf, ErrRange)].  Go also reads hexadecimal mantissas,
    underscores between digits, and the words inf, infinity and nan; these
    are outside this model, which is only run on plain decimal inputs. *)
Definition ParseFloat (s : string) : float64 * option NumError :=
  let '(neg, s1) := readSign s in
  match readDigits s1 false 0 0%nat 0 with
  | (_, O, _, _) => (f64.zero, Some ErrSyntax)
  | (mant, S _, frac, s2) =>
      match readExponent s2 with
      | None => (f64.zero, Some ErrSyntax)
      | Some e =>
          match decimalToFloat neg mant (e - frac) with
          | S754_infinity sg => (S754_infinity sg, Some ErrRange)
          | f => (f, None)
          end
      end
  end.

(** [ParseFloat] also reads the word NaN as the float NaN, without error
    (Go matches it in any case; the spelling below is enough here). *)
Definition ParseFloatNaN (s : string) : float64 * option NumError :=
  if String.eqb s "NaN" then (S754_nan, None) else ParseFloat s.

(** *** [strconv.FormatFloat(f, 'g', -1, 64)] *)

(** A positive finite float as a fraction. *)
Definition fraction (m : positive) (e : Z) : Z * Z :=
  if 0 <=? e then (Zpos m * 2 ^ e, 1) else (Zpos m, 2 ^ (- e)).

(** The integer part of [v / 10 ^ p]. *)
Definition scaled (v : Z * Z) (p : Z) : Z :=
  let '(num, den) := v in
  if 0 <=? p then num / (den * 10 ^ p) else (num * 10 ^ (- p)) / den.

(** The [k] with [10 ^ k <= v < 10 ^ (k + 1)], from an estimate. *)
Fixpoint adjustLog10 (fuel : nat) (v : Z * Z) (k : Z) : Z :=
  match fuel with
  | O => k
  | S fuel' =>
      if scaled v k =? 0 then adjustLog10 fuel' v (k - 1)
      else if 10 <=? scaled v k then adjustLog10 fuel' v (k + 1)
      else k
  end.

Definition log10floor (m : positive) (e : Z) : Z :=
  adjustLog10 4 (fraction m e) (((Z.log2 (Zpos m) + e) * 30103) / 100000).

Definition sameFloat (a b : float64) : bool :=
  match a, b with
  | S754_finite s m e, S754_finite s' m' e' =>
      Bool.eqb s s' && Pos.eqb m m' && Z.eqb e e'
  | _, _ => false
  end.

(** Is [lo * 10 ^ p] at least as close to [v] as [(lo + 1) * 10 ^ p]? *)
Definition closerLow (v : Z * Z) (p lo : Z) : bool :=
  let '(num, den) := v in
  if 0 <=? p then 2 * (num - lo * den * 10 ^ p) <=? den * 10 ^ p
  else 2 * (num * 10 ^ (- p) - lo * den) <=? den.

(** The shortest decimal that reads back as [f]: try 1, 2, ... digits; with
    [n] digits the two neighbours of [v] are the only candidates. *)
Fixpoint shortestFrom (f : float64) (v : Z * Z) (k : Z) (n : nat)
    (fuel : nat) : Z * Z :=
  let p := k - Z.of_nat n + 1 in
  let lo := scaled v p in
  match fuel with
  | O => (lo, p)
  | S fuel' =>
      let okLo := sameFloat (decimalToFloat false lo p) f in
      let okHi := sameFloat (decimalToFloat false (lo + 1) p) f in
      if okLo && (closerLow v p lo || negb okHi) then (lo, p)
      else if okHi then (lo + 1, p)
      else shortestFrom f v k (S n) fuel'
  end.

Fixpoint stripZeros (fuel : nat) (d p : Z) : Z * Z :=
  match fuel with
  | O => (d, p)
  | S fuel' =>
      if (d mod 10 =? 0) && negb (d =? 0)
      then stripZeros fuel' (d / 10) (p + 1)
      else (d, p)
  end.

(** The digits and the position of the decimal point ([digs.d], [digs.dp]). *)
Definition shortest (m : positive) (e : Z) : string * Z :=
  let f := S754_finite false m e in
  let '(d, p) := shortestFrom f (fraction m e) (log10floor m e) 1 17 in
  let '(d, p) := stripZeros 400 d p in
  let ds := pretty d in
  (ds, Z.of_nat (String.length ds) + p).

Definition zeros (n : nat) : string :=
  string_of_list_ascii (repeat "0"%char n).

(** [%f]: the integer part, then [prec] digits after the point. *)
Definition fmtF (neg : bool) (d : string) (dp prec : Z) : string :=
  let nd := Z.of_nat (String.length d) in
  (if neg then "-" else "") +:+
  (if 0 <? dp then
     let m := Z.min nd dp in
     substring 0 (Z.to_nat m) d +:+ zeros (Z.to_nat (dp - m))
   else "0") +:+
  (if 0 <? prec then
     "." +:+ string_of_list_ascii
       (map (λ i, let j := dp + Z.of_nat i in
                  if (0 <=? j) && (j <? nd)
                  then default "0"%char (String.get (Z.to_nat j) d)
                  else "0"%char)
            (seq 0 (Z.to_nat prec)))
   else "").

(** [%e]: one digit, the others after the point, a two-digit exponent. *)
Definition fmtE (neg : bool) (d : string) (dp prec : Z) : string :=
  let nd := Z.of_nat (String.length d) in
  (if neg then "-" else "") +:+
  (if nd =? 0 then "0" else substring 0 1 d) +:+
  (if 0 <? prec then
     let m := Z.min nd (prec + 1) in
     "." +:+ substring 1 (Z.to_nat (m - 1)) d
         +:+ zeros (Z.to_nat (prec + 1 - Z.max m 1))
   else "") +:+
  "e" +:+
  (let exp := if nd =? 0 then 0 else dp - 1 in
   (if exp <? 0 then "-" else "+") +:+
   (let a := Z.abs exp in if a <? 10 then "0" +:+ pretty a else pretty a)).

(** [strconv.FormatFloat(f, 'g', -1, 64)]: the shortest digits, in [%e]
    form when the exponent is below -4 or at least 6. *)
Definition FormatFloat (f : float64) : string :=
  match f with
  | S754_nan => "NaN"
  | S754_infinity false => "+Inf"
  | S754_infinity true => "-Inf"
  | S754_zero neg => fmtF neg "" 0 0
  | S754_finite neg m e =>
      let '(d, dp) := shortest m e in
      let nd := Z.of_nat (String.length d) in
      let exp := dp - 1 in
      if (exp <? -4) || (6 <=? exp) then fmtE neg d dp (nd - 1)
      else fmtF neg d dp (Z.max (nd - dp) 0)
  end.

(** [strconv.FormatInt(i, 10)] *)
Definition FormatInt (i : Z) : string := pretty i.

End strconv.

Module sort.

(** What [sort.Slice] requires of its [less]: a strict weak ordering. *)
Record StrictWeakOrder {A : Type} (less : A → A → bool) : Prop :=
  { swo_irrefl : ∀ a, less a a = false;
    swo_trans : ∀ a b c, less a b = true → less b c = true → less a c = true;
    swo_incomparable :
      ∀ a b c, less a b = false → less b c = false → less a c = false }.

(** [a] may stand before [b]: [b] is not less than [a]. *)
Definition notAfter {A : Type} (less : A → A → bool) : relation A :=
  λ a b, less b a = false.

Global Instance notAfter_dec {A : Type} (less : A → A → bool) :
  RelDecision (notAfter less).
Proof. intros a b. unfold notAfter. apply _. Defined.

(** A sort that meets the contract of [sort.Slice] (merge sort). *)
Definition Slice {A : Type} (less : A → A → bool) (x : list A) : list A :=
  merge_sort (notAfter less) x.

End sort.

Module xml.

Definition quote : string := String "034"%char EmptyString.
Definition newline : string := String "010"%char EmptyString.

(** [xml.Header] *)
Definition Header : string :=
  "<?xml version=" +:+ quote +:+ "1.0" +:+ quote +:+
  " encoding=" +:+ quote +:+ "UTF-8" +:+ quote +:+ "?>" +:+ newline.

(** The value of an attribute, before it is turned into text. *)
Inductive value : Type :=
| VString (s : string)
| VInt (i : Z)
| VFloat (f : float64).

#[local] Unset Elimination Schemes.
Inductive node : Type :=
  Element { name : string;
            attrs : list (string * value);
            chardata : string;
            children : list node }.
#[local] Set Elimination Schemes.

Definition attr (key : string) (e : node) : option value :=
  snd <$> List.find (λ kv, String.eqb (fst kv) key) (attrs e).

(** [xml.EscapeText] on one byte of the ASCII range; bytes of a multi-byte
    UTF-8 sequence are copied (Go replaces malformed sequences and the
    characters XML forbids by U+FFFD; below 128 these are the control
    characters other than tab, newline and carriage return). *)
Definition escapeByte (c : ascii) : string :=
  let n := N_of_ascii c in
  if (n =? 34)%N then "&#34;"
  else if (n =? 39)%N then "&#39;"
  else if (n =? 38)%N then "&amp;"
  else if (n =? 60)%N then "&lt;"
  else if (n =? 62)%N then "&gt;"
  else if (n =? 9)%N then "&#x9;"
  else if (n =? 10)%N then "&#xA;"
  else if (n =? 13)%N then "&#xD;"
  else if (n <? 32)%N then
    String "239"%char (String "191"%char (String "189"%char EmptyString))
  else String c EmptyString.

Fixpoint EscapeText (s : string) : string :=
  match s with
  | EmptyString => EmptyString
  | String c s' => escapeByte c +:+ EscapeText s'
  end.

(** Expected documents are written with apostrophes where the output has
    double quotes; [quoted] puts the double quotes back. *)
Fixpoint quoted (s : string) : string :=
  match s with
  | EmptyString => EmptyString
  | String c s' =>
      String (if Ascii.eqb c "'" then "034"%char else c) (quoted s')
  end.

End xml.

(** ** The state the tree walk threads

    [suiteMap] is the mapping the Go code mutates in place; [ticks] counts
    the readings of the clock taken so far, so that the n-th call of
    [time.Now().Format(time.RFC3339)] yields [Now n]. *)
Record world : Type :=
  World { suiteMap : gmap string JUnitTestSuite.t; ticks : nat }.

Definition world0 : world := World ∅ 0.

Definition string_in (s : string) (l : list string) : bool :=
  existsb (String.eqb s) l.

Definition FailureMessageType : string := "Failure Message".
Definition TestFailed : string := "Test failed".

(** ** The converter *)

(** [extractFailureMessage]: the loop over the children returns at the first
    child of failure-message kind, or at the first child whose own search
    comes back with something else than the fallback text. *)
Fixpoint extractFailureMessage (node : TestNode.t) : string :=
  match node with
  | TestNode.Make children _ _ _ _ _ =>
      (fix loop (cs : list TestNode.t) : string :=
         match cs with
         | [] => TestFailed
         | child :: rest =>
             if String.eqb (TestNode.NodeType child) FailureMessageType
             then TestNode.Name child
             else
               let message := extractFailureMessage child in
               if negb (String.eqb message TestFailed) then message
               else loop rest
         end) children
  end.

(** [buildClassName] *)
Definition buildClassName (current newPart : string) : string :=
  if String.eqb current "" then newPart
  else current +:+ "." +:+ newPart.

(** [totalSuiteTime]: the running total starts at +0 and adds left to right. *)
Definition totalSuiteTime (cases : list JUnitTestCase.t) : float64 :=
  fold_left (λ total tc, f64.add total (JUnitTestCase.Time tc)) cases f64.zero.

(** The suite name of an identifier: its first segment, or the sentinel
    (the lines between [strings.Split] and the lookup in [processTestCase]). *)
Definition suiteNameOf (nodeIdentifier : string) : string :=
  let parts := strings.Split nodeIdentifier "/" in
  let suiteName := nth 0 parts "" in
  if String.eqb suiteName "" then "UnknownSuite" else suiteName.

Definition isContainerType (nodeType : string) : bool :=
  string_in nodeType ["Unit test bundle"; "UI test bundle"; "Test Suite"].

Definition isTestPlanType (nodeType : string) : bool :=
  string_in nodeType ["Test Plan"; "Test Plan Configuration"].

(** The comparisons handed to [sort.Slice]: [<] on the names, byte-wise. *)
Definition suiteLess (a b : JUnitTestSuite.t) : bool :=
  String.ltb (JUnitTestSuite.Name a) (JUnitTestSuite.Name b).

Definition caseLess (a b : JUnitTestCase.t) : bool :=
  String.ltb (JUnitTestCase.Name a) (JUnitTestCase.Name b).

(** The totals the assembly loop writes into a suite. *)
Definition withTotals (suite : JUnitTestSuite.t) : JUnitTestSuite.t :=
  JUnitTestSuite.Make
    (JUnitTestSuite.Name suite)
    (Z.of_nat (length (JUnitTestSuite.TestCases suite)))
    (JUnitTestSuite.Failures suite)
    (JUnitTestSuite.Errors suite)
    (totalSuiteTime (JUnitTestSuite.TestCases suite))
    (JUnitTestSuite.Timestamp suite)
    (JUnitTestSuite.TestCases suite).

Definition withCases (suite : JUnitTestSuite.t) (cases : list JUnitTestCase.t)
  : JUnitTestSuite.t :=
  JUnitTestSuite.Make
    (JUnitTestSuite.Name suite) (JUnitTestSuite.Tests suite)
    (JUnitTestSuite.Failures suite) (JUnitTestSuite.Errors suite)
    (JUnitTestSuite.Time suite) (JUnitTestSuite.Timestamp suite) cases.

(** The suite added when no suite was created. *)
Definition defaultSuite (timestamp : string) : JUnitTestSuite.t :=
  JUnitTestSuite.Make "XCTest" 0 0 0 f64.zero timestamp [].

(** *** The XML elements of the report, as the struct tags define them *)

Definition marshalFailure (f : JUnitFailure.t) : xml.node :=
  xml.Element "failure"
    [("message", xml.VString (JUnitFailure.Message f));
     ("type", xml.VString (JUnitFailure.Type' f))]
    (JUnitFailure.Content f) [].

Definition marshalSkipped (s : JUnitSkipped.t) : xml.node :=
  xml.Element "skipped"
    (if String.eqb (JUnitSkipped.Message s) "" then []
     else [("message", xml.VString (JUnitSkipped.Message s))])
    "" [].

Definition marshalTestCase (tc : JUnitTestCase.t) : xml.node :=
  xml.Element "testcase"
    [("name", xml.VString (JUnitTestCase.Name tc));
     ("classname", xml.VString (JUnitTestCase.Classname tc));
     ("time", xml.VFloat (JUnitTestCase.Time tc))]
    ""
    (option_list (marshalFailure <$> JUnitTestCase.Failure tc)
     ++ option_list (marshalSkipped <$> JUnitTestCase.Skipped tc)).

Definition marshalTestSuite (suite : JUnitTestSuite.t) : xml.node :=
  xml.Element "testsuite"
    [("name", xml.VString (JUnitTestSuite.Name suite));
     ("tests", xml.VInt (JUnitTestSuite.Tests suite));
     ("failures", xml.VInt (JUnitTestSuite.Failures suite));
     ("errors", xml.VInt (JUnitTestSuite.Errors suite));
     ("time", xml.VFloat (JUnitTestSuite.Time suite));
     ("timestamp", xml.VString (JUnitTestSuite.Timestamp suite))]
    ""
    (marshalTestCase <$> JUnitTestSuite.TestCases suite).

Definition marshalTestSuites (testSuites : JUnitTestSuites.t) : xml.node :=
  xml.Element "testsuites" [] ""
    (marshalTestSuite <$> JUnitTestSuites.TestSuites testSuites).


Section Converter.

(** [strconv.ParseFloat(s, 64)]: the value and the error it returns. *)
Variable ParseFloat : string → float64 * option NumError.

(** [time.Now().Format(time.RFC3339)] at the n-th reading of the clock. *)
Variable Now : nat → string.

(** [sort.Slice], as a function from the slice before to the slice after. *)
Variable sortSlice : ∀ A : Type, (A → A → bool) → list A → list A.

(** [strconv.FormatFloat(f, 'g', -1, 64)] and [xml.EscapeText]. *)
Variable FormatFloat : float64 → string.
Variable EscapeText : string → string.

(** [json.Unmarshal] into an [XCResultRoot]: the root, or an error text. *)
Variable Unmarshal : string → XCResultRoot.t + string.

(** [parseDuration]: the error of [ParseFloat] is dropped, its value kept. *)
Definition parseDuration (dur : string) : float64 :=
  let dur := strings.TrimSuffix dur "s" in
  if String.eqb dur "" then f64.zero
  else
    let '(seconds, _) := ParseFloat dur in
    seconds.

(** The test case record [processTestCase] builds for a node. *)
Definition testCaseOf (node : TestNode.t) (classname : string)
  : JUnitTestCase.t :=
  let duration := parseDuration (TestNode.Duration node) in
  let failure :=
    if String.eqb (TestNode.Result node) "Failed" then
      let failureMessage := extractFailureMessage node in
      Some (JUnitFailure.Make failureMessage "Failure" failureMessage)
    else None in
  JUnitTestCase.Make (TestNode.Name node) classname duration failure None.

(** [processTestCase].  The suite is reached through a pointer held by the
    mapping, so what is written to it is written to the mapping. *)
Definition processTestCase
    (node : TestNode.t) (classname : string) (w : world) : world :=
  if negb (strings.Contains (TestNode.NodeIdentifier node) "/") then w
  else
    let parts := strings.Split (TestNode.NodeIdentifier node) "/" in
    if (length parts <? 2)%nat then w
    else
      let suiteName := suiteNameOf (TestNode.NodeIdentifier node) in
      let '(suite, w) :=
        match suiteMap w !! suiteName with
        | Some suite => (suite, w)
        | None =>
            let suite :=
              JUnitTestSuite.Make suiteName 0 0 0 f64.zero
                                  (Now (ticks w)) [] in
            (suite, World (<[suiteName := suite]> (suiteMap w))
                          (S (ticks w)))
        end in
      let testCase := testCaseOf node classname in
      let failures :=
        if String.eqb (TestNode.Result node) "Failed"
        then wrap_int (JUnitTestSuite.Failures suite + 1)
        else JUnitTestSuite.Failures suite in
      let suite :=
        JUnitTestSuite.Make
          (JUnitTestSuite.Name suite)
          (JUnitTestSuite.Tests suite)
          failures
          (JUnitTestSuite.Errors suite)
          (JUnitTestSuite.Time suite)
          (JUnitTestSuite.Timestamp suite)
          (JUnitTestSuite.TestCases suite ++ [testCase]) in
      World (<[suiteName := suite]> (suiteMap w)) (ticks w).

(** One turn of the loop of [processTestNodes]: the [switch] on the kind.
    A failure message, like any other kind, leaves the mapping as it is. *)
Fixpoint processTestNode
    (node : TestNode.t) (classname : string) (w : world) {struct node}
  : world :=
  match node with
  | TestNode.Make children name nodeType _ _ _ =>
      if isContainerType nodeType then
        let newClassname := buildClassName classname name in
        fold_left (λ w child, processTestNode child newClassname w)
                  children w
      else if String.eqb nodeType "Test Case" then
        processTestCase node classname w
      else if isTestPlanType nodeType then
        fold_left (λ w child, processTestNode child classname w)
                  children w
      else w
  end.

(** [processTestNodes] *)
Definition processTestNodes
    (nodes : list TestNode.t) (classname : string) (w : world) : world :=
  fold_left (λ w node, processTestNode node classname w) nodes w.

(** [sortTestSuites]: the suites by name, then the cases of each by name. *)
Definition sortCases (suite : JUnitTestSuite.t) : JUnitTestSuite.t :=
  withCases suite (sortSlice _ caseLess (JUnitTestSuite.TestCases suite)).

Definition sortTestSuites (suites : list JUnitTestSuite.t)
  : list JUnitTestSuite.t :=
  sortCases <$> sortSlice _ suiteLess suites.

(** The second half of [ConvertXCResultJSONToJUnitXML], from the loop over
    the mapping to the report.  [entries] is the order in which [range]
    hands out the entries of the mapping.  The loop writes the totals
    through the pointers, and the case slices that are sorted share their
    storage with those of the mapping: afterwards every suite of the
    mapping carries its totals and its cases in sorted order. *)
Definition assemble
    (entries : list (string * JUnitTestSuite.t)) (w : world)
  : world * JUnitTestSuites.t :=
  let testSuites := (λ e, withTotals (snd e)) <$> entries in
  let testSuites := sortTestSuites testSuites in
  let suiteMap' := (λ suite, sortCases (withTotals suite)) <$> suiteMap w in
  if (length testSuites =? 0)%nat then
    (World suiteMap' (S (ticks w)),
     JUnitTestSuites.Make [defaultSuite (Now (ticks w))])
  else
    (World suiteMap' (ticks w), JUnitTestSuites.Make testSuites).

(** The report for a forest of root nodes. *)
Definition reportOf
    (entries : list (string * JUnitTestSuite.t)) (nodes : list TestNode.t)
  : JUnitTestSuites.t :=
  snd (assemble entries (processTestNodes nodes "" world0)).

(** *** [xml.MarshalIndent(v, "", "  ")] on the elements of a report *)

Definition printValue (v : xml.value) : string :=
  match v with
  | xml.VString s => EscapeText s
  | xml.VInt i => strconv.FormatInt i
  | xml.VFloat f => FormatFloat f
  end.

Definition printAttr (a : string * xml.value) : string :=
  " " +:+ fst a +:+ "=" +:+ xml.quote +:+ printValue (snd a) +:+ xml.quote.

Fixpoint indentation (depth : nat) : string :=
  match depth with
  | O => ""
  | S d => "  " +:+ indentation d
  end.

Fixpoint printElement (depth : nat) (e : xml.node) : string :=
  match e with
  | xml.Element name attrs chardata children =>
      "<" +:+ name +:+ String.concat "" (printAttr <$> attrs) +:+ ">"
      +:+ EscapeText chardata
      +:+ match children with
          | [] => ""
          | _ =>
              String.concat ""
                ((λ c, xml.newline +:+ indentation (S depth)
                       +:+ printElement (S depth) c) <$> children)
              +:+ xml.newline +:+ indentation depth
          end
      +:+ "</" +:+ name +:+ ">"
  end.

Definition MarshalIndent (testSuites : JUnitTestSuites.t) : string :=
  printElement 0 (marshalTestSuites testSuites).

(** The bytes returned for a report. *)
Definition xmlBytes (testSuites : JUnitTestSuites.t) : string :=
  xml.Header +:+ MarshalIndent testSuites.

(** [ConvertXCResultJSONToJUnitXML].  [range] tells in which order the loop
    over the mapping visits its entries.  Marshalling a report cannot fail:
    the error branch after [xml.MarshalIndent] is never taken. *)
Definition ConvertXCResultJSONToJUnitXML
    (range : gmap string JUnitTestSuite.t →
             list (string * JUnitTestSuite.t))
    (jsonData : string) : string + string :=
  match Unmarshal jsonData with
  | inr err => inr ("failed to parse XCResult JSON: " +:+ err)
  | inl root =>
      let w := processTestNodes (XCResultRoot.TestNodes root) "" world0 in
      let '(_, testSuites) := assemble (range (suiteMap w)) w in
      inl (xmlBytes testSuites)
  end.

(** ** The notions the statements use *)

(** [reached anc node] lists, in visiting order, the nodes of test-case
    kind the walk arrives at in the tree of [node], each with the chain of
    nodes entered on the way to it, outermost first, after [anc]. *)
Fixpoint reached (anc : list TestNode.t) (node : TestNode.t)
  : list (list TestNode.t * TestNode.t) :=
  match node with
  | TestNode.Make children _ nodeType _ _ _ =>
      if isContainerType nodeType || isTestPlanType nodeType then
        flat_map (reached (anc ++ [node])) children
      else if String.eqb nodeType "Test Case" then [(anc, node)]
      else []
  end.

Definition reachedFrom (nodes : list TestNode.t)
  : list (list TestNode.t * TestNode.t) :=
  flat_map (reached []) nodes.

(** A node of test-case kind is eligible when its identifier has a "/". *)
Definition eligible (node : TestNode.t) : bool :=
  strings.Contains (TestNode.NodeIdentifier node) "/".

Definition eligibleCases (nodes : list TestNode.t)
  : list (list TestNode.t * TestNode.t) :=
  filter (λ c, eligible (snd c) = true) (reachedFrom nodes).

(** The display names of the container-kind nodes of a chain. *)
Definition containerNames (anc : list TestNode.t) : list string :=
  TestNode.Name <$>
    filter (λ n, isContainerType (TestNode.NodeType n) = true) anc.

(** The names joined with ".", the empty names at the front left out, so
    that the result starts with a name and not with a separator. *)
Fixpoint dropEmpty (names : list string) : list string :=
  match names with
  | EmptyString :: rest => dropEmpty rest
  | _ => names
  end.

Definition dotJoin (names : list string) : string :=
  String.concat "." (dropEmpty names).

(** The record of a reached test case, and its suite name. *)
Definition caseRecord (c : list TestNode.t * TestNode.t) : JUnitTestCase.t :=
  testCaseOf (snd c) (dotJoin (containerNames (fst c))).

Definition caseSuite (c : list TestNode.t * TestNode.t) : string :=
  suiteNameOf (TestNode.NodeIdentifier (snd c)).

(** The cases of the suite [k], in the order the walk visits them. *)
Definition casesOfSuite (k : string) (nodes : list TestNode.t)
  : list JUnitTestCase.t :=
  caseRecord <$> filter (λ c, caseSuite c = k) (eligibleCases nodes).

(** The display name of the first node of failure-message kind that a
    depth-first search of the descendants of [node] finds. *)
Fixpoint firstFailureMessage (node : TestNode.t) : option string :=
  match node with
  | TestNode.Make children _ _ _ _ _ =>
      (fix search (cs : list TestNode.t) : option string :=
         match cs with
         | [] => None
         | child :: rest =>
             if String.eqb (TestNode.NodeType child) FailureMessageType
             then Some (TestNode.Name child)
             else match firstFailureMessage child with
                  | Some m => Some m
                  | None => search rest
                  end
         end) children
  end.

(** The tree with the duration of every container and test-plan node
    replaced by [d]; the nodes of other kinds are left as they are. *)
Fixpoint withSuiteDurations (d : string) (node : TestNode.t) : TestNode.t :=
  match node with
  | TestNode.Make children name nodeType duration result nodeIdentifier =>
      if isContainerType nodeType || isTestPlanType nodeType then
        TestNode.Make (withSuiteDurations d <$> children) name nodeType d
                      result nodeIdentifier
      else node
  end.

(** The mapping is keyed by the names of its suites. *)
Definition keyedByName (m : gmap string JUnitTestSuite.t) : Prop :=
  ∀ k suite, m !! k = Some suite → JUnitTestSuite.Name suite = k.

(** [range] over a mapping visits every entry once, in some order. *)
Definition rangeOf (m : gmap string JUnitTestSuite.t)
    (entries : list (string * JUnitTestSuite.t)) : Prop :=
  entries ≡ₚ map_to_list m.

(** The cases held under a key of the mapping. *)
Definition casesAt (w : world) (k : string) : list JUnitTestCase.t :=
  from_option JUnitTestSuite.TestCases [] (suiteMap w !! k).

(** What the walk does at a reached test case. *)
Definition step (w : world) (c : list TestNode.t * TestNode.t) : world :=
  processTestCase (snd c) (dotJoin (containerNames (fst c))) w.

(** Every suite of the mapping holds at least one case. *)
Definition noEmptySuite (m : gmap string JUnitTestSuite.t) : Prop :=
  ∀ k suite, m !! k = Some suite → JUnitTestSuite.TestCases suite ≠ [].

(** The mapping after the walk over a forest. *)
Definition walked (nodes : list TestNode.t) : world :=
  processTestNodes nodes "" world0.

(** ** Example inputs *)

(** A clock that advances by one second at every reading. *)
Definition clock (n : nat) : string :=
  "2025-01-01T00:00:" +:+ (if (n <? 10)%nat then "0" else "")
  +:+ pretty n +:+ "Z".

Definition failureMessage (text : string) : TestNode.t :=
  TestNode.Make [] text FailureMessageType "" "" "".

Definition testCase (name duration result nodeIdentifier : string)
    (children : list TestNode.t) : TestNode.t :=
  TestNode.Make children name "Test Case" duration result nodeIdentifier.

Definition container (nodeType name duration : string)
    (children : list TestNode.t) : TestNode.t :=
  TestNode.Make children name nodeType duration "" "".

(** The scenario of the specification: one case under two containers. *)
Definition exampleCase (result : string) (children : list TestNode.t)
  : TestNode.t :=
  testCase "testExample" "0.5s" result "MyTestSuite/MyTestGroup/testExample"
           children.

Definition exampleTree (result : string) (children : list TestNode.t)
  : list TestNode.t :=
  [container "Test Plan" "Plan" ""
     [container "Unit test bundle" "MyTestSuite" "1.5s"
        [container "Test Suite" "MyTestGroup" "1.5s"
           [exampleCase result children]]]].

Definition expectedMessage : string :=
  "Test failed: expected true but got false".

(** A failing case whose first failure message, nested one level down,
    reads like the fallback text, followed by a second message. *)
Definition shadowedCase : TestNode.t :=
  exampleCase "Failed"
    [TestNode.Make [failureMessage TestFailed] "Repetition 1"
                   "Repetition" "" "" "";
     failureMessage "XCTAssertTrue failed"].

(** Three cases of one suite, visited in the reverse of their name order. *)
Definition reversedTimes : list TestNode.t :=
  [container "Test Suite" "TimingTests" "0.6s"
     [testCase "testC" "0.1s" "Passed" "TimingTests/testC" [];
      testCase "testB" "0.2s" "Passed" "TimingTests/testB" [];
      testCase "testA" "0.3s" "Passed" "TimingTests/testA" []]].

(** Two cases of one suite name under different bundles. *)
Definition caseOne : TestNode.t :=
  testCase "testOne" "1s" "Passed" "Shared/testOne" [].
Definition caseTwo : TestNode.t :=
  testCase "testTwo" "2s" "Failed" "Shared/testTwo" [].
Definition bundleA : TestNode.t :=
  container "Unit test bundle" "BundleA" "" [caseOne].
Definition bundleB : TestNode.t :=
  container "UI test bundle" "BundleB" "" [caseTwo].
Definition splitSuite : list TestNode.t := [bundleA; bundleB].

(** A case that was skipped. *)
Definition skippedTree : list TestNode.t :=
  [container "Test Suite" "MyTestSuite" ""
     [testCase "testSkipped" "0s" "Skipped" "MyTestSuite/testSkipped" []]].

(** A case whose identifier starts with the separator. *)
Definition unnamedSuiteTree : list TestNode.t :=
  [testCase "testRoot" "1s" "Passed" "/testRoot" []].

(** A suite with a duration that is not a number. *)
Definition nanTree : list TestNode.t :=
  [container "Test Suite" "NanTests" ""
     [testCase "testNaN" "NaNs" "Passed" "NanTests/testNaN" [];
      testCase "testOk" "1s" "Passed" "NanTests/testOk" []]].

(** A node of test-case kind without separator, and with no identifier. *)
Definition configurationNode (nodeIdentifier : string) : TestNode.t :=
  testCase "Test Scheme Action" "2s" "Failed" nodeIdentifier
           [failureMessage "XCTAssertTrue failed"].

(** ** Further notions *)

(** The number of cases that carry a failure detail. *)
Definition failedCount (cases : list JUnitTestCase.t) : nat :=
  length (filter (λ tc, is_Some (JUnitTestCase.Failure tc)) cases).

(** An element with a child element [failure]. *)
Definition hasFailureChild (e : xml.node) : bool :=
  existsb (λ c, String.eqb (xml.name c) "failure") (xml.children e).

(** What the walk keeps true of every suite of the mapping: the failure
    counter follows the failure details, and the totals that only the
    assembly writes are still zero. *)
Definition countsKept (m : gmap string JUnitTestSuite.t) : Prop :=
  ∀ k suite, m !! k = Some suite →
    JUnitTestSuite.Failures suite
    = wrap_int (Z.of_nat (failedCount (JUnitTestSuite.TestCases suite)))
    ∧ JUnitTestSuite.Errors suite = 0%Z
    ∧ JUnitTestSuite.Tests suite = 0%Z
    ∧ JUnitTestSuite.Time suite = f64.zero.

(** All the cases of a mapping, and of a report. *)
Definition mappingCases (m : gmap string JUnitTestSuite.t)
  : list JUnitTestCase.t :=
  concat ((λ e, JUnitTestSuite.TestCases (snd e)) <$> map_to_list m).

Definition reportCases (testSuites : JUnitTestSuites.t)
  : list JUnitTestCase.t :=
  concat (JUnitTestSuite.TestCases <$> JUnitTestSuites.TestSuites testSuites).

(** The clock was read once for every suite of the mapping, and every suite
    bears one of these readings. *)
Definition clockKept (w : world) : Prop :=
  size (suiteMap w) = ticks w
  ∧ ∀ k suite, suiteMap w !! k = Some suite →
      ∃ i, (i < ticks w)%nat ∧ JUnitTestSuite.Timestamp suite = Now i.

(** [d] is a node strictly below [node]. *)
Inductive descendant : TestNode.t → TestNode.t → Prop :=
| descendant_child (c node : TestNode.t) :
    c ∈ TestNode.Children node → descendant c node
| descendant_below (d c node : TestNode.t) :
    c ∈ TestNode.Children node → descendant d c → descendant d node.

(** The tree with every test-plan node replaced by its children. *)
Fixpoint splicePlans (node : TestNode.t) : list TestNode.t :=
  match node with
  | TestNode.Make children name nodeType duration result nodeIdentifier =>
      if isTestPlanType nodeType then flat_map splicePlans children
      else if isContainerType nodeType then
        [TestNode.Make (flat_map splicePlans children) name nodeType duration
                       result nodeIdentifier]
      else [node]
  end.

(** The tree without the nodes the walk passes over: those that are neither
    containers, test plans nor test cases, wherever the walk would meet
    them. *)
Fixpoint pruneIgnored (node : TestNode.t) : list TestNode.t :=
  match node with
  | TestNode.Make children name nodeType duration result nodeIdentifier =>
      if isContainerType nodeType || isTestPlanType nodeType then
        [TestNode.Make (flat_map pruneIgnored children) name nodeType
                       duration result nodeIdentifier]
      else if String.eqb nodeType "Test Case" then [node]
      else []
  end.

(** [w'] continues [w]: every suite of [w] is still there under its key,
    with its name and timestamp, and with its cases at the front of the
    cases it has now; the clock has not gone back. *)
Definition continues (w w' : world) : Prop :=
  (ticks w ≤ ticks w')%nat
  ∧ ∀ k suite, suiteMap w !! k = Some suite →
      ∃ suite', suiteMap w' !! k = Some suite'
        ∧ JUnitTestSuite.Name suite' = JUnitTestSuite.Name suite
        ∧ JUnitTestSuite.Timestamp suite' = JUnitTestSuite.Timestamp suite
        ∧ JUnitTestSuite.TestCases suite
            `prefix_of` JUnitTestSuite.TestCases suite'.

(** ** Strings *)

Lemma prefix_empty (s : string) : String.prefix "" s = true.
Proof. by destruct s. Qed.

Lemma Contains_cons (a c : ascii) (s : string) :
  strings.Contains (String a s) (String c "")
  = Ascii.eqb a c || strings.Contains s (String c "").
Proof.
  simpl. destruct (ascii_dec c a) as [->|Hne].
  - by rewrite prefix_empty, Ascii.eqb_refl.
  - destruct (Ascii.eqb_spec a c) as [->|_]; [done|].
    done.
Qed.

Lemma Contains_empty (c : ascii) :
  strings.Contains "" (String c "") = false.
Proof. done. Qed.

Lemma Split_nonempty (s : string) (c : ascii) : strings.Split s c ≠ [].
Proof.
  destruct s as [|a s]; simpl; [done|].
  destruct (Ascii.eqb a c); [done|]. by destruct (strings.Split s c).
Qed.

(** Without the separator there is one part, the string itself. *)
Lemma Split_without (s : string) (c : ascii) :
  strings.Contains s (String c "") = false → strings.Split s c = [s].
Proof.
  induction s as [|a s IH]; [done|].
  rewrite Contains_cons. intros [Ha Hs]%orb_false_iff.
  simpl. rewrite Ha, (IH Hs). done.
Qed.

(** The first part is what stands before the first separator. *)
Lemma Split_first (seg rest : string) (c : ascii) :
  strings.Contains seg (String c "") = false →
  strings.Split (seg +:+ String c rest) c = seg :: strings.Split rest c.
Proof.
  induction seg as [|a seg IH]; intros Hseg.
  - simpl. by rewrite Ascii.eqb_refl.
  - rewrite Contains_cons in Hseg. apply orb_false_iff in Hseg as [Ha Hs].
    change (String a seg +:+ String c rest)
      with (String a (seg +:+ String c rest)).
    simpl. rewrite Ha, (IH Hs). done.
Qed.

(** A string with the separator falls into a first segment and a rest. *)
Lemma Contains_decompose (s : string) (c : ascii) :
  strings.Contains s (String c "") = true →
  ∃ seg rest, s = seg +:+ String c rest
              ∧ strings.Contains seg (String c "") = false.
Proof.
  induction s as [|a s IH]; [done|].
  rewrite Contains_cons. destruct (Ascii.eqb_spec a c) as [->|Hne]; simpl.
  - intros _. by exists "", s.
  - intros (seg & rest & -> & Hseg)%IH.
    exists (String a seg), rest. split; [done|].
    rewrite Contains_cons, Hseg.
    by destruct (Ascii.eqb_spec a c).
Qed.

(** The second test of [processTestCase] never fires. *)
Lemma Split_length (s : string) (c : ascii) :
  strings.Contains s (String c "") = true →
  (2 ≤ length (strings.Split s c))%nat.
Proof.
  intros (seg & rest & -> & Hseg)%Contains_decompose.
  rewrite Split_first by done. simpl.
  pose proof (Split_nonempty rest c).
  destruct (strings.Split rest c); [done|simpl; lia].
Qed.

Lemma suiteNameOf_segment (seg rest : string) :
  strings.Contains seg "/" = false →
  suiteNameOf (seg +:+ "/" +:+ rest)
  = if String.eqb seg "" then "UnknownSuite" else seg.
Proof.
  intros Hseg. unfold suiteNameOf.
  change ("/" +:+ rest) with (String "/" rest).
  by rewrite Split_first.
Qed.

Lemma substring_prefix (s t : string) :
  substring 0 (String.length s) (s +:+ t) = s.
Proof.
  induction s as [|a s IH]; [by destruct t|].
  change (String a s +:+ t) with (String a (s +:+ t)). simpl. by rewrite IH.
Qed.

Lemma substring_all (t : string) : substring 0 (String.length t) t = t.
Proof. induction t as [|a t IH]; [done|]. simpl. by rewrite IH. Qed.

Lemma substring_suffix (s t : string) :
  substring (String.length s) (String.length t) (s +:+ t) = t.
Proof.
  induction s as [|a s IH]; [apply substring_all|].
  change (String a s +:+ t) with (String a (s +:+ t)). simpl. by rewrite IH.
Qed.

Lemma length_append (s t : string) :
  String.length (s +:+ t) = (String.length s + String.length t)%nat.
Proof.
  induction s as [|a s IH]; [done|].
  change (String a s +:+ t) with (String a (s +:+ t)). simpl. by rewrite IH.
Qed.

Lemma HasSuffix_append (s suffix : string) :
  strings.HasSuffix (s +:+ suffix) suffix = true.
Proof.
  unfold strings.HasSuffix. rewrite length_append.
  replace (String.length s + String.length suffix - String.length suffix)%nat
    with (String.length s) by lia.
  rewrite substring_suffix, String.eqb_refl, andb_true_r.
  apply Nat.leb_le. lia.
Qed.

(** One trailing suffix is removed, and only one. *)
Lemma TrimSuffix_append (s suffix : string) :
  strings.TrimSuffix (s +:+ suffix) suffix = s.
Proof.
  unfold strings.TrimSuffix. rewrite HasSuffix_append, length_append.
  replace (String.length s + String.length suffix - String.length suffix)%nat
    with (String.length s) by lia.
  apply substring_prefix.
Qed.

Lemma substring_split (n : nat) (s : string) :
  (n ≤ String.length s)%nat →
  s = substring 0 n s +:+ substring n (String.length s - n) s.
Proof.
  revert s. induction n as [|n IH]; intros s Hn.
  - simpl. rewrite Nat.sub_0_r, substring_all. by destruct s.
  - destruct s as [|a s]; simpl in *; [lia|].
    change (String a (substring 0 n s) +:+ substring n (String.length s - n) s)
      with (String a (substring 0 n s +:+ substring n (String.length s - n) s)).
    f_equal. apply IH. lia.
Qed.

(** A string has the suffix exactly when it ends with it. *)
Lemma HasSuffix_iff (s suffix : string) :
  strings.HasSuffix s suffix = true ↔ ∃ d, s = d +:+ suffix.
Proof.
  split.
  - unfold strings.HasSuffix.
    intros [Hlen Heq%String.eqb_eq]%andb_true_iff. apply Nat.leb_le in Hlen.
    exists (substring 0 (String.length s - String.length suffix) s).
    pose proof (substring_split
                  (String.length s - String.length suffix) s) as Hsplit.
    replace (String.length s - (String.length s - String.length suffix))%nat
      with (String.length suffix) in Hsplit by lia.
    rewrite Heq in Hsplit. apply Hsplit. lia.
  - intros [d ->]. apply HasSuffix_append.
Qed.

Lemma TrimSuffix_without (s suffix : string) :
  (∀ d, s ≠ d +:+ suffix) → strings.TrimSuffix s suffix = s.
Proof.
  intros Hno. unfold strings.TrimSuffix.
  destruct (strings.HasSuffix s suffix) eqn:Hs; [|done].
  apply HasSuffix_iff in Hs as [d ->]. by destruct (Hno d).
Qed.

(** ** The classname prefix *)

Lemma append_assoc (a b c : string) : (a +:+ b) +:+ c = a +:+ (b +:+ c).
Proof.
  induction a as [|x a IH]; [done|].
  change (String x a +:+ b) with (String x (a +:+ b)).
  change (String x (a +:+ b) +:+ c) with (String x ((a +:+ b) +:+ c)).
  change (String x a +:+ (b +:+ c)) with (String x (a +:+ (b +:+ c))).
  by rewrite IH.
Qed.

Lemma append_empty_inv (a b : string) : a +:+ b = "" → a = "".
Proof. by destruct a. Qed.

(** Below a prefix that is not empty, every name adds "." and itself. *)
Lemma fold_buildClassName_nonempty (names : list string) (current : string) :
  current ≠ "" →
  fold_left buildClassName names current
  = String.concat "." (current :: names).
Proof.
  revert current. induction names as [|n names IH]; intros current Hne.
  - done.
  - simpl fold_left. unfold buildClassName at 2.
    destruct (String.eqb_spec current "") as [->|_]; [done|].
    rewrite IH.
    + simpl. destruct names as [|n' names]; [done|].
      by rewrite !append_assoc.
    + intros H%append_empty_inv. done.
Qed.

(** From the empty prefix the walk builds the dotted path of the names. *)
Lemma fold_buildClassName (names : list string) :
  fold_left buildClassName names "" = dotJoin names.
Proof.
  unfold dotJoin. induction names as [|n names IH]; [done|].
  simpl fold_left. unfold buildClassName at 2. simpl String.eqb.
  destruct n as [|a n]; [exact IH|].
  by rewrite fold_buildClassName_nonempty.
Qed.


Lemma containerNames_app (anc1 anc2 : list TestNode.t) :
  containerNames (anc1 ++ anc2) = containerNames anc1 ++ containerNames anc2.
Proof. unfold containerNames. by rewrite filter_app, fmap_app. Qed.

(** ** The search for the failure message *)

Lemma extractFailureMessage_none (node : TestNode.t) :
  firstFailureMessage node = None → extractFailureMessage node = TestFailed.
Proof.
  induction node as [children name nodeType dur res ident IH]
    using TestNode.t_ind.
  simpl. induction IH as [|child rest Hchild _ IHrest]; [done|].
  destruct (String.eqb (TestNode.NodeType child) FailureMessageType);
    [done|].
  destruct (firstFailureMessage child) eqn:Hc; [done|].
  intros Hrest. rewrite (Hchild eq_refl), String.eqb_refl. simpl.
  by apply IHrest.
Qed.

Lemma extractFailureMessage_first (node : TestNode.t) (m : string) :
  firstFailureMessage node = Some m → m ≠ TestFailed →
  extractFailureMessage node = m.
Proof.
  induction node as [children name nodeType dur res ident IH]
    using TestNode.t_ind.
  simpl. induction IH as [|child rest Hchild _ IHrest]; [done|].
  destruct (String.eqb (TestNode.NodeType child) FailureMessageType);
    [by intros [= ->]|].
  destruct (firstFailureMessage child) as [m'|] eqn:Hc.
  - intros [= ->] Hm. rewrite (Hchild eq_refl Hm).
    by destruct (String.eqb_spec m TestFailed).
  - intros Hrest Hm.
    rewrite (extractFailureMessage_none child Hc), String.eqb_refl. simpl.
    by apply IHrest.
Qed.

(** ** One test case *)

Lemma processTestCase_skip (node : TestNode.t) (classname : string)
    (w : world) :
  eligible node = false → processTestCase node classname w = w.
Proof. unfold eligible, processTestCase. by intros ->. Qed.

(** What an eligible node does to the mapping: its suite, found or made
    under the suite name, gets the new case at the end. *)
Lemma processTestCase_eligible (node : TestNode.t) (classname : string)
    (w : world) :
  eligible node = true →
  let k := suiteNameOf (TestNode.NodeIdentifier node) in
  let failed := String.eqb (TestNode.Result node) "Failed" in
  let suite :=
    default (JUnitTestSuite.Make k 0 0 0 f64.zero (Now (ticks w)) [])
            (suiteMap w !! k) in
  processTestCase node classname w
  = World
      (<[k := JUnitTestSuite.Make
                (JUnitTestSuite.Name suite) (JUnitTestSuite.Tests suite)
                (if failed then wrap_int (JUnitTestSuite.Failures suite + 1)
                 else JUnitTestSuite.Failures suite)
                (JUnitTestSuite.Errors suite) (JUnitTestSuite.Time suite)
                (JUnitTestSuite.Timestamp suite)
                (JUnitTestSuite.TestCases suite
                 ++ [testCaseOf node classname])]> (suiteMap w))
      (if suiteMap w !! k is Some _ then ticks w else S (ticks w)).
Proof.
  intros Hel. unfold eligible in Hel. unfold processTestCase.
  rewrite Hel. simpl negb. cbv iota.
  pose proof (Split_length _ _ Hel) as Hlen.
  destruct (Nat.ltb_spec (length (strings.Split
              (TestNode.NodeIdentifier node) "/")) 2) as [?|_]; [lia|].
  destruct (suiteMap w !! suiteNameOf (TestNode.NodeIdentifier node))
    as [suite|] eqn:Hk; simpl; [done|].
  by rewrite insert_insert_eq.
Qed.

Lemma casesAt_processTestCase (node : TestNode.t) (classname : string)
    (w : world) (k : string) :
  casesAt (processTestCase node classname w) k
  = casesAt w k
    ++ (if eligible node then
          if decide (suiteNameOf (TestNode.NodeIdentifier node) = k)
          then [testCaseOf node classname] else []
        else []).
Proof.
  destruct (eligible node) eqn:Hel.
  - rewrite processTestCase_eligible by done. unfold casesAt. simpl.
    destruct (decide (suiteNameOf (TestNode.NodeIdentifier node) = k))
      as [<-|Hne].
    + rewrite lookup_insert_eq. simpl.
      by destruct (suiteMap w !! _).
    + rewrite lookup_insert_ne by done. by rewrite app_nil_r.
  - rewrite processTestCase_skip by done. by rewrite app_nil_r.
Qed.

Lemma keyedByName_processTestCase (node : TestNode.t) (classname : string)
    (w : world) :
  keyedByName (suiteMap w) →
  keyedByName (suiteMap (processTestCase node classname w)).
Proof.
  intros Hkeyed. destruct (eligible node) eqn:Hel.
  - rewrite processTestCase_eligible by done. simpl.
    intros k suite. rewrite lookup_insert.
    case_decide as Hk; [|by apply Hkeyed].
    intros [= <-]. simpl. subst k.
    destruct (suiteMap w !! _) as [s|] eqn:Hs; simpl; [|done].
    by apply Hkeyed.
  - by rewrite processTestCase_skip.
Qed.

(** ** The walk *)

Lemma fold_left_flat_map {A B C : Type} (f : A → B → A) (g : C → list B)
    (l : list C) (a : A) :
  fold_left f (flat_map g l) a
  = fold_left (λ a x, fold_left f (g x) a) l a.
Proof.
  revert a. induction l as [|x l IH]; intros a; [done|].
  simpl. by rewrite fold_left_app, IH.
Qed.

Lemma fold_left_over_fmap {A B C : Type} (f : A → B → A) (g : C → B)
    (l : list C) (a : A) :
  fold_left f (g <$> l) a = fold_left (λ a x, f a (g x)) l a.
Proof. revert a. induction l as [|x l IH]; intros a; [done|]. apply IH. Qed.

Lemma fold_left_Forall_ext {A B : Type} (f g : A → B → A) (l : list B)
    (a : A) :
  Forall (λ x, ∀ a, f a x = g a x) l → fold_left f l a = fold_left g l a.
Proof.
  intros Hl. revert a. induction Hl as [|x l Hx _ IH]; intros a; [done|].
  simpl. by rewrite Hx, IH.
Qed.

Lemma dotJoin_snoc (names : list string) (n : string) :
  buildClassName (dotJoin names) n = dotJoin (names ++ [n]).
Proof. by rewrite <- !fold_buildClassName, fold_left_app. Qed.

Lemma isTestPlanType_not_container (nodeType : string) :
  isTestPlanType nodeType = true → isContainerType nodeType = false.
Proof.
  unfold isTestPlanType, isContainerType, string_in. simpl.
  rewrite !orb_false_r.
  intros [->%String.eqb_eq | ->%String.eqb_eq]%orb_true_iff; done.
Qed.

(** The walk over a tree does to the mapping what processing, one after the
    other, the test cases it reaches does, each under the dotted path of
    the containers above it. *)
Lemma processTestNode_reached (node : TestNode.t) :
  ∀ (anc : list TestNode.t) (w : world),
    processTestNode node (dotJoin (containerNames anc)) w
    = fold_left step (reached anc node) w.
Proof.
  induction node as [children name nodeType dur res ident IH]
    using TestNode.t_ind.
  intros anc w. simpl.
  destruct (isContainerType nodeType) eqn:Hc; simpl.
  - rewrite fold_left_flat_map. apply fold_left_Forall_ext.
    eapply Forall_impl; [exact IH|]. intros child Hchild w'. simpl in Hchild.
    rewrite <- Hchild. f_equal.
    rewrite dotJoin_snoc, containerNames_app. f_equal. f_equal.
    unfold containerNames. simpl. rewrite filter_cons_True by done.
    by rewrite filter_nil.
  - destruct (String.eqb_spec nodeType "Test Case") as [->|Hn]; [done|].
    destruct (isTestPlanType nodeType) eqn:Hp; [|done].
    rewrite fold_left_flat_map. apply fold_left_Forall_ext.
    eapply Forall_impl; [exact IH|]. intros child Hchild w'. simpl in Hchild.
    rewrite <- Hchild. f_equal.
    rewrite containerNames_app. unfold containerNames at 3. simpl.
    rewrite filter_cons_False by (simpl; congruence).
    by rewrite filter_nil, app_nil_r.
Qed.

Lemma processTestNodes_reached (nodes : list TestNode.t) (w : world) :
  processTestNodes nodes "" w = fold_left step (reachedFrom nodes) w.
Proof.
  unfold processTestNodes, reachedFrom. rewrite fold_left_flat_map.
  apply fold_left_Forall_ext, Forall_forall. intros node _ w'.
  apply (processTestNode_reached node []).
Qed.

Lemma casesAt_fold (cs : list (list TestNode.t * TestNode.t)) (w : world)
    (k : string) :
  casesAt (fold_left step cs w) k
  = casesAt w k
    ++ (caseRecord <$>
          filter (λ c, caseSuite c = k)
                 (filter (λ c, eligible (snd c) = true) cs)).
Proof.
  revert w. induction cs as [|c cs IH]; intros w.
  - by rewrite app_nil_r.
  - simpl fold_left. rewrite IH.
    change (step w c)
      with (processTestCase (snd c) (dotJoin (containerNames (fst c))) w).
    rewrite casesAt_processTestCase, <- app_assoc. f_equal.
    destruct (eligible (snd c)) eqn:Hel.
    + rewrite (filter_cons_True _ c) by done.
      case_decide as Hk.
      * by rewrite filter_cons_True by done.
      * by rewrite filter_cons_False by done.
    + by rewrite (filter_cons_False _ c) by (simpl; congruence).
Qed.

Lemma keyedByName_fold (cs : list (list TestNode.t * TestNode.t))
    (w : world) :
  keyedByName (suiteMap w) → keyedByName (suiteMap (fold_left step cs w)).
Proof.
  revert w. induction cs as [|c cs IH]; intros w Hw; [done|].
  simpl. by apply IH, keyedByName_processTestCase.
Qed.

Lemma noEmptySuite_fold (cs : list (list TestNode.t * TestNode.t))
    (w : world) :
  noEmptySuite (suiteMap w) → noEmptySuite (suiteMap (fold_left step cs w)).
Proof.
  revert w. induction cs as [|c cs IH]; intros w Hw; [done|].
  simpl. apply IH. unfold step. destruct (eligible (snd c)) eqn:Hel.
  - rewrite processTestCase_eligible by done. simpl.
    intros k suite. rewrite lookup_insert.
    case_decide; [|by apply Hw]. intros [= <-]. simpl.
    by intros [_ ?]%app_eq_nil.
  - by rewrite processTestCase_skip.
Qed.

Lemma walked_cases (nodes : list TestNode.t) (k : string) :
  casesAt (walked nodes) k = casesOfSuite k nodes.
Proof.
  unfold walked. rewrite processTestNodes_reached, casesAt_fold. done.
Qed.

Lemma walked_keyed (nodes : list TestNode.t) :
  keyedByName (suiteMap (walked nodes)).
Proof.
  unfold walked. rewrite processTestNodes_reached.
  apply keyedByName_fold. intros k suite. simpl. by rewrite lookup_empty.
Qed.

Lemma walked_noEmptySuite (nodes : list TestNode.t) :
  noEmptySuite (suiteMap (walked nodes)).
Proof.
  unfold walked. rewrite processTestNodes_reached.
  apply noEmptySuite_fold. intros k suite. simpl. by rewrite lookup_empty.
Qed.

Lemma walked_lookup (nodes : list TestNode.t) (k : string)
    (suite : JUnitTestSuite.t) :
  suiteMap (walked nodes) !! k = Some suite →
  JUnitTestSuite.Name suite = k
  ∧ JUnitTestSuite.TestCases suite = casesOfSuite k nodes.
Proof.
  intros Hk. split; [by apply (walked_keyed nodes)|].
  rewrite <- walked_cases. unfold casesAt. by rewrite Hk.
Qed.

Lemma walked_lookup_case (nodes : list TestNode.t)
    (c : list TestNode.t * TestNode.t) :
  c ∈ eligibleCases nodes →
  ∃ suite, suiteMap (walked nodes) !! caseSuite c = Some suite
           ∧ caseRecord c ∈ JUnitTestSuite.TestCases suite.
Proof.
  intros Hc.
  assert (caseRecord c ∈ casesAt (walked nodes) (caseSuite c)) as Hin.
  { rewrite walked_cases. unfold casesOfSuite.
    apply list_elem_of_fmap_2, list_elem_of_filter. done. }
  unfold casesAt in Hin.
  destruct (suiteMap (walked nodes) !! caseSuite c) as [suite|];
    [by exists suite|].
  by apply elem_of_nil in Hin.
Qed.

(** ** Order *)

Lemma ltb_leb (a b : string) : String.ltb a b = negb (String.leb b a).
Proof.
  unfold String.ltb, String.leb. rewrite (String.compare_antisym a b).
  by destruct (String.compare b a).
Qed.

Lemma le_leb (a b : string) : String.le a b ↔ String.leb a b = true.
Proof. unfold String.le. apply Is_true_true. Qed.

(** [String.leb] is the lexicographic order on the bytes. *)
Lemma leb_lexicographic (a b : ascii) (s t : string) :
  String.leb "" t = true
  ∧ String.leb (String a s) "" = false
  ∧ String.leb (String a s) (String b t)
    = if (N_of_ascii a <? N_of_ascii b)%N then true
      else if (N_of_ascii a =? N_of_ascii b)%N then String.leb s t
      else false.
Proof.
  split; [by destruct t|]. split; [done|].
  unfold String.leb. simpl. unfold Ascii.compare.
  destruct (N.compare_spec (N_of_ascii a) (N_of_ascii b)) as [E|Hlt|Hgt].
  - by rewrite E, N.ltb_irrefl, N.eqb_refl.
  - apply N.ltb_lt in Hlt. by rewrite Hlt.
  - destruct (N.ltb_spec (N_of_ascii a) (N_of_ascii b)); [lia|].
    destruct (N.eqb_spec (N_of_ascii a) (N_of_ascii b)); [lia|done].
Qed.

(** [<] on a string-valued key is a strict weak ordering. *)
Lemma ltb_key_swo {A : Type} (key : A → string) :
  sort.StrictWeakOrder (λ a b, String.ltb (key a) (key b)).
Proof.
  split.
  - intros a. rewrite ltb_leb. apply negb_false_iff, le_leb. done.
  - intros a b c. rewrite !ltb_leb, !negb_true_iff.
    intros Hab Hbc. destruct (String.leb (key c) (key a)) eqn:Hca; [|done].
    destruct (total String.le (key a) (key b)) as [H|H%le_leb];
      [|congruence].
    apply le_leb in Hca.
    assert (String.le (key c) (key b)) as ?%le_leb by (by etrans).
    congruence.
  - intros a b c. rewrite !ltb_leb, !negb_false_iff.
    intros Hba%le_leb Hcb%le_leb. apply le_leb. by etrans.
Qed.

Lemma notAfter_key_le {A : Type} (key : A → string) (a b : A) :
  sort.notAfter (λ a b, String.ltb (key a) (key b)) a b
  ↔ String.le (key a) (key b).
Proof.
  unfold sort.notAfter. by rewrite ltb_leb, negb_false_iff, le_leb.
Qed.

(** ** The contract of [sort.Slice]

    The slice afterwards holds the elements it held before, and no element
    is less than one that stands before it, provided [less] is a strict
    weak ordering. *)
Hypothesis sortSlice_perm :
  ∀ (A : Type) (less : A → A → bool) (x : list A),
    sortSlice A less x ≡ₚ x.
Hypothesis sortSlice_sorted :
  ∀ (A : Type) (less : A → A → bool) (x : list A),
    sort.StrictWeakOrder less →
    StronglySorted (sort.notAfter less) (sortSlice A less x).


Lemma sortCases_name (suite : JUnitTestSuite.t) :
  JUnitTestSuite.Name (sortCases suite) = JUnitTestSuite.Name suite.
Proof. done. Qed.

Lemma sortTestSuites_perm (suites : list JUnitTestSuite.t) :
  sortTestSuites suites ≡ₚ sortCases <$> suites.
Proof. unfold sortTestSuites. by rewrite sortSlice_perm. Qed.

Lemma sortTestSuites_nil : sortTestSuites [] = [].
Proof.
  apply Permutation_nil_r. by rewrite sortTestSuites_perm.
Qed.



(** The report, by cases on whether the loop found an entry. *)
Lemma assemble_report (entries : list (string * JUnitTestSuite.t))
    (w : world) :
  snd (assemble entries w)
  = JUnitTestSuites.Make
      (match entries with
       | [] => [defaultSuite (Now (ticks w))]
       | _ => sortTestSuites ((λ e, withTotals (snd e)) <$> entries)
       end).
Proof.
  unfold assemble. destruct entries as [|e entries].
  - simpl. by rewrite sortTestSuites_nil.
  - pose proof (Permutation_length
      (sortTestSuites_perm ((λ e, withTotals (snd e)) <$> e :: entries)))
      as Hlen.
    rewrite !length_fmap in Hlen. simpl in Hlen.
    destruct (sortTestSuites _) eqn:Hs; [done|]. done.
Qed.

(** The order in which [range] visits a mapping keyed by name has no
    influence on the sorted suites. *)
Lemma sortTestSuites_range (m : gmap string JUnitTestSuite.t)
    (entries1 entries2 : list (string * JUnitTestSuite.t)) :
  keyedByName m → rangeOf m entries1 → rangeOf m entries2 →
  sortTestSuites ((λ e, withTotals (snd e)) <$> entries1)
  = sortTestSuites ((λ e, withTotals (snd e)) <$> entries2).
Proof.
  intros Hkeyed H1 H2. unfold sortTestSuites. f_equal.
  assert (∀ entries x, rangeOf m entries →
            x ∈ sortSlice _ suiteLess ((λ e, withTotals (snd e)) <$> entries) →
            ∃ suite, m !! JUnitTestSuite.Name x = Some suite
                     ∧ x = withTotals suite) as Hin.
  { intros entries x Hr. rewrite sortSlice_perm.
    intros ([k suite] & -> & Hks)%list_elem_of_fmap. simpl.
    rewrite Hr in Hks. apply elem_of_map_to_list in Hks.
    exists suite. by rewrite (Hkeyed _ _ Hks). }
  apply (StronglySorted_unique_strong (sort.notAfter suiteLess)).
  - intros x1 x2 Hx1 Hx2 H12 H21.
    apply (notAfter_key_le JUnitTestSuite.Name) in H12, H21.
    assert (JUnitTestSuite.Name x1 = JUnitTestSuite.Name x2) as Hname
      by (by apply (anti_symm String.le)).
    destruct (Hin _ _ H1 Hx1) as (s1 & Hs1 & ->).
    destruct (Hin _ _ H2 Hx2) as (s2 & Hs2 & ->).
    rewrite Hname in Hs1. congruence.
  - apply sortSlice_sorted, (ltb_key_swo JUnitTestSuite.Name).
  - apply sortSlice_sorted, (ltb_key_swo JUnitTestSuite.Name).
  - rewrite !sortSlice_perm. by rewrite H1, H2.
Qed.

(** ** The report *)

Lemma fold_step_no_eligible (cs : list (list TestNode.t * TestNode.t))
    (w : world) :
  filter (λ c, eligible (snd c) = true) cs = [] → fold_left step cs w = w.
Proof.
  revert w. induction cs as [|c cs IH]; intros w; [done|].
  destruct (eligible (snd c)) eqn:Hel.
  - by rewrite filter_cons_True by done.
  - rewrite filter_cons_False by (simpl; congruence). intros Hcs.
    simpl. unfold step at 2. rewrite processTestCase_skip by done.
    by apply IH.
Qed.

Lemma walked_no_eligible (nodes : list TestNode.t) :
  eligibleCases nodes = [] → walked nodes = world0.
Proof.
  intros Hnone. unfold walked. rewrite processTestNodes_reached.
  by apply fold_step_no_eligible.
Qed.

Lemma walked_empty (nodes : list TestNode.t) :
  suiteMap (walked nodes) = ∅ → eligibleCases nodes = [].
Proof.
  intros Hempty. destruct (eligibleCases nodes) as [|c cs] eqn:Hcs; [done|].
  destruct (walked_lookup_case nodes c) as (suite & Hsuite & _).
  { rewrite Hcs. by left. }
  by rewrite Hempty, lookup_empty in Hsuite.
Qed.

Lemma rangeOf_map_to_list (m : gmap string JUnitTestSuite.t) :
  rangeOf m (map_to_list m).
Proof. by unfold rangeOf. Qed.

Lemma rangeOf_nil (m : gmap string JUnitTestSuite.t) :
  rangeOf m [] → m = ∅.
Proof.
  unfold rangeOf. intros H%Permutation_nil. by apply map_to_list_empty_iff.
Qed.

(** A suite of the report is the default suite, or the sorted and totalled
    copy of the suite the mapping holds under its name. *)
Lemma reportOf_suite (nodes : list TestNode.t)
    (entries : list (string * JUnitTestSuite.t))
    (suite : JUnitTestSuite.t) :
  rangeOf (suiteMap (walked nodes)) entries →
  suite ∈ JUnitTestSuites.TestSuites (reportOf entries nodes) →
  (eligibleCases nodes = [] ∧ suite = defaultSuite (Now 0))
  ∨ (∃ s, suiteMap (walked nodes) !! JUnitTestSuite.Name suite = Some s
          ∧ suite = sortCases (withTotals s)).
Proof.
  intros Hrange. unfold reportOf. fold (walked nodes).
  rewrite assemble_report. simpl. destruct entries as [|e entries].
  - intros ->%list_elem_of_singleton. left.
    pose proof (walked_empty nodes (rangeOf_nil _ Hrange)) as Hnone.
    by rewrite (walked_no_eligible nodes Hnone).
  - rewrite sortTestSuites_perm.
    intros (s' & -> & ([k s] & -> & Hks)%list_elem_of_fmap)%list_elem_of_fmap.
    right. exists s. simpl. split; [|done].
    rewrite Hrange in Hks. apply elem_of_map_to_list in Hks.
    by rewrite (walked_keyed nodes _ _ Hks).
Qed.

Lemma reportOf_suite_of_mapping (nodes : list TestNode.t)
    (entries : list (string * JUnitTestSuite.t)) (k : string)
    (s : JUnitTestSuite.t) :
  rangeOf (suiteMap (walked nodes)) entries →
  suiteMap (walked nodes) !! k = Some s →
  sortCases (withTotals s)
    ∈ JUnitTestSuites.TestSuites (reportOf entries nodes).
Proof.
  intros Hrange Hk. unfold reportOf. fold (walked nodes).
  rewrite assemble_report. simpl.
  assert ((k, s) ∈ entries) as Hin.
  { rewrite Hrange. by apply elem_of_map_to_list. }
  destruct entries as [|e entries]; [by apply elem_of_nil in Hin|].
  rewrite sortTestSuites_perm.
  apply list_elem_of_fmap_2.
  by apply (list_elem_of_fmap_2 (λ e, withTotals (snd e)) _ (k, s)).
Qed.

Lemma sortCases_cases (suite : JUnitTestSuite.t) :
  JUnitTestSuite.TestCases (sortCases suite)
  ≡ₚ JUnitTestSuite.TestCases suite.
Proof. simpl. apply sortSlice_perm. Qed.

(** The cases of a suite of the report are those the walk recorded under
    its name, in some order. *)
Lemma reportOf_cases (nodes : list TestNode.t)
    (entries : list (string * JUnitTestSuite.t))
    (suite : JUnitTestSuite.t) :
  rangeOf (suiteMap (walked nodes)) entries →
  suite ∈ JUnitTestSuites.TestSuites (reportOf entries nodes) →
  JUnitTestSuite.TestCases suite
  ≡ₚ casesOfSuite (JUnitTestSuite.Name suite) nodes.
Proof.
  intros Hrange Hsuite.
  destruct (reportOf_suite nodes entries suite Hrange Hsuite)
    as [[Hnone ->] | (s & Hs & ->)].
  - unfold casesOfSuite. by rewrite Hnone.
  - rewrite sortCases_cases.
    destruct (walked_lookup _ _ _ Hs) as [_ E]. simpl in *. by rewrite E.
Qed.

Lemma reportOf_case (nodes : list TestNode.t)
    (entries : list (string * JUnitTestSuite.t))
    (suite : JUnitTestSuite.t) (tc : JUnitTestCase.t) :
  rangeOf (suiteMap (walked nodes)) entries →
  suite ∈ JUnitTestSuites.TestSuites (reportOf entries nodes) →
  tc ∈ JUnitTestSuite.TestCases suite →
  ∃ c, c ∈ eligibleCases nodes ∧ tc = caseRecord c
       ∧ caseSuite c = JUnitTestSuite.Name suite.
Proof.
  intros Hrange Hsuite. rewrite (reportOf_cases nodes entries) by done.
  unfold casesOfSuite.
  intros (c & -> & [Hk Hc]%list_elem_of_filter)%list_elem_of_fmap.
  by exists c.
Qed.

(** Every eligible case the walk reaches is in the suite of the report
    that bears its suite name. *)
Lemma reportOf_has_case (nodes : list TestNode.t)
    (entries : list (string * JUnitTestSuite.t))
    (c : list TestNode.t * TestNode.t) :
  rangeOf (suiteMap (walked nodes)) entries →
  c ∈ eligibleCases nodes →
  ∃ suite, suite ∈ JUnitTestSuites.TestSuites (reportOf entries nodes)
           ∧ JUnitTestSuite.Name suite = caseSuite c
           ∧ caseRecord c ∈ JUnitTestSuite.TestCases suite.
Proof.
  intros Hrange Hc.
  destruct (walked_lookup_case nodes c Hc) as (s & Hs & Hin).
  exists (sortCases (withTotals s)). split; [|split].
  - by eapply reportOf_suite_of_mapping.
  - simpl. by apply (walked_keyed nodes).
  - by rewrite sortCases_cases.
Qed.

(** Two suites of the report with one name are one suite. *)
Lemma reportOf_name_inj (nodes : list TestNode.t)
    (entries : list (string * JUnitTestSuite.t))
    (suite1 suite2 : JUnitTestSuite.t) :
  rangeOf (suiteMap (walked nodes)) entries →
  suite1 ∈ JUnitTestSuites.TestSuites (reportOf entries nodes) →
  suite2 ∈ JUnitTestSuites.TestSuites (reportOf entries nodes) →
  JUnitTestSuite.Name suite1 = JUnitTestSuite.Name suite2 →
  suite1 = suite2.
Proof.
  intros Hrange H1 H2 Hname.
  apply (reportOf_suite nodes entries) in H1, H2; [|done..].
  destruct H1 as [[Hnone ->] | (s1 & Hs1 & E1)],
           H2 as [[Hnone' ->] | (s2 & Hs2 & E2)]; [done|..].
  - rewrite (walked_no_eligible nodes Hnone) in Hs2.
    simpl in Hs2. by rewrite lookup_empty in Hs2.
  - rewrite (walked_no_eligible nodes Hnone') in Hs1.
    simpl in Hs1. by rewrite lookup_empty in Hs1.
  - rewrite Hname in Hs1. congruence.
Qed.

(** ** Durations of containers *)

Lemma processTestNode_withSuiteDurations (d : string) (node : TestNode.t) :
  ∀ (classname : string) (w : world),
    processTestNode (withSuiteDurations d node) classname w
    = processTestNode node classname w.
Proof.
  induction node as [children name nodeType dur res ident IH]
    using TestNode.t_ind.
  intros classname w. simpl.
  destruct (isContainerType nodeType) eqn:Hc; simpl.
  - rewrite Hc. rewrite fold_left_over_fmap.
    apply fold_left_Forall_ext.
    eapply Forall_impl; [exact IH|]. intros child Hchild w'. apply Hchild.
  - destruct (isTestPlanType nodeType) eqn:Hp; simpl;
      [|by rewrite Hc, Hp].
    rewrite Hc, Hp.
    destruct (String.eqb_spec nodeType "Test Case") as [->|Hn]; [done|].
    rewrite fold_left_over_fmap.
    apply fold_left_Forall_ext.
    eapply Forall_impl; [exact IH|]. intros child Hchild w'. apply Hchild.
Qed.

Lemma walked_withSuiteDurations (d : string) (nodes : list TestNode.t) :
  walked (withSuiteDurations d <$> nodes) = walked nodes.
Proof.
  unfold walked, processTestNodes. rewrite fold_left_over_fmap.
  apply fold_left_Forall_ext, Forall_forall. intros node _ w.
  apply processTestNode_withSuiteDurations.
Qed.

(** ** The entry point *)

(** On a document that decodes, the bytes returned are those of the report
    of its root nodes; on one that does not, the error is returned and
    nothing else. *)
Lemma ConvertXCResultJSONToJUnitXML_decoded
    (range : gmap string JUnitTestSuite.t → list (string * JUnitTestSuite.t))
    (jsonData : string) (root : XCResultRoot.t) :
  Unmarshal jsonData = inl root →
  ConvertXCResultJSONToJUnitXML range jsonData
  = inl (xmlBytes
           (reportOf
              (range (suiteMap (walked (XCResultRoot.TestNodes root))))
              (XCResultRoot.TestNodes root))).
Proof.
  intros Hroot. unfold ConvertXCResultJSONToJUnitXML, reportOf, walked.
  rewrite Hroot. by destruct (assemble _ _).
Qed.

Lemma ConvertXCResultJSONToJUnitXML_malformed
    (range : gmap string JUnitTestSuite.t → list (string * JUnitTestSuite.t))
    (jsonData err : string) :
  Unmarshal jsonData = inr err →
  ConvertXCResultJSONToJUnitXML range jsonData
  = inr ("failed to parse XCResult JSON: " +:+ err).
Proof. intros Herr. unfold ConvertXCResultJSONToJUnitXML. by rewrite Herr. Qed.

(** ** The properties of the specification *)

(** C1, as amended.  An eligible test case with outcome "Failed" gets a
    failure detail whose message and content are both the text found by
    [extractFailureMessage], with type "Failure".  That text is the
    fallback "Test failed" when the subtree has no node of failure-message
    kind, and it is the display name of the first such node a depth-first
    search finds whenever that name is not itself the fallback text; in
    particular a first message "Test failed: expected true but got false"
    is taken verbatim. *)
Theorem failure_message_first_found
    (node : TestNode.t) (classname : string) (w : world) :
  eligible node = true →
  TestNode.Result node = "Failed" →
  let message := extractFailureMessage node in
  (∃ suite,
      suiteMap (processTestCase node classname w)
        !! suiteNameOf (TestNode.NodeIdentifier node) = Some suite
      ∧ last (JUnitTestSuite.TestCases suite)
        = Some (testCaseOf node classname))
  ∧ JUnitTestCase.Failure (testCaseOf node classname)
    = Some (JUnitFailure.Make message "Failure" message)
  ∧ xml.children (marshalTestCase (testCaseOf node classname))
    = [xml.Element "failure"
         [("message", xml.VString message);
          ("type", xml.VString "Failure")]
         message []]
  ∧ (firstFailureMessage node = None → message = TestFailed)
  ∧ (∀ m, firstFailureMessage node = Some m → m ≠ TestFailed →
          message = m)
  ∧ (firstFailureMessage node = Some expectedMessage →
     message = expectedMessage).
Proof.
  intros Hel Hres message. repeat split.
  - rewrite processTestCase_eligible by done. simpl.
    rewrite lookup_insert_eq. eexists. split; [done|]. simpl.
    apply last_snoc.
  - unfold testCaseOf. by rewrite Hres.
  - unfold testCaseOf, marshalTestCase. by rewrite Hres.
  - apply extractFailureMessage_none.
  - apply extractFailureMessage_first.
  - intros H. by apply extractFailureMessage_first.
Qed.


(** C3.  When the tree yields no eligible test case, the document holds one
    [testsuite] element and nothing else: the suite "XCTest" with no tests,
    failures or errors, time +0 and the timestamp of the clock. *)
Theorem default_suite_when_no_case
    (nodes : list TestNode.t) (entries : list (string * JUnitTestSuite.t)) :
  eligibleCases nodes = [] →
  rangeOf (suiteMap (walked nodes)) entries →
  marshalTestSuites (reportOf entries nodes)
  = xml.Element "testsuites" [] ""
      [xml.Element "testsuite"
         [("name", xml.VString "XCTest");
          ("tests", xml.VInt 0);
          ("failures", xml.VInt 0);
          ("errors", xml.VInt 0);
          ("time", xml.VFloat f64.zero);
          ("timestamp", xml.VString (Now 0))]
         "" []].
Proof.
  intros Hnone Hrange. unfold reportOf. fold (walked nodes).
  rewrite (walked_no_eligible nodes Hnone) in *.
  unfold rangeOf in Hrange. simpl in Hrange.
  rewrite map_to_list_empty in Hrange. apply Permutation_nil_r in Hrange.
  subst entries. by rewrite assemble_report.
Qed.

(** C4.  A node of test-case kind whose identifier has no "/" leaves the
    mapping and the clock as they are, whatever its outcome: no suite, no
    case, no failure count. *)
Theorem identifier_without_separator_skipped
    (node : TestNode.t) (classname : string) (w : world) :
  TestNode.NodeType node = "Test Case" →
  strings.Contains (TestNode.NodeIdentifier node) "/" = false →
  processTestCase node classname w = w
  ∧ processTestNodes [node] classname w = w.
Proof.
  intros Hkind Hid.
  assert (processTestCase node classname w = w) as Hskip
    by (by apply processTestCase_skip).
  split; [done|].
  destruct node as [children name nodeType dur res ident].
  simpl in Hkind. subst nodeType. exact Hskip.
Qed.

(** C5.  The suite name of an eligible test case is the segment of its
    identifier before the first "/", or "UnknownSuite" when that segment is
    empty; the report has exactly one suite of that name, and it holds the
    cases of all eligible nodes with that suite name, whatever the chains
    of containers above them. *)
Theorem suite_keyed_by_first_segment
    (nodes : list TestNode.t) (entries : list (string * JUnitTestSuite.t))
    (c : list TestNode.t * TestNode.t) :
  rangeOf (suiteMap (walked nodes)) entries →
  c ∈ eligibleCases nodes →
  (∃ seg rest,
      TestNode.NodeIdentifier (snd c) = seg +:+ "/" +:+ rest
      ∧ strings.Contains seg "/" = false
      ∧ caseSuite c = if String.eqb seg "" then "UnknownSuite" else seg)
  ∧ ∃ suite,
      suite ∈ JUnitTestSuites.TestSuites (reportOf entries nodes)
      ∧ JUnitTestSuite.Name suite = caseSuite c
      ∧ (∀ c', c' ∈ eligibleCases nodes → caseSuite c' = caseSuite c →
               caseRecord c' ∈ JUnitTestSuite.TestCases suite)
      ∧ (∀ suite',
            suite' ∈ JUnitTestSuites.TestSuites (reportOf entries nodes) →
            JUnitTestSuite.Name suite' = caseSuite c → suite' = suite).
Proof.
  intros Hrange Hc. split.
  - apply list_elem_of_filter in Hc as [Hel _].
    destruct (Contains_decompose _ _ Hel) as (seg & rest & Hid & Hseg).
    exists seg, rest. split; [done|]. split; [done|].
    unfold caseSuite. rewrite Hid. by apply suiteNameOf_segment.
  - destruct (reportOf_has_case nodes entries c Hrange Hc)
      as (suite & Hsuite & Hname & _).
    exists suite. split; [done|]. split; [done|]. split.
    + intros c' Hc' Hsame.
      destruct (reportOf_has_case nodes entries c' Hrange Hc')
        as (suite' & Hsuite' & Hname' & Hin).
      replace suite with suite'; [done|].
      apply (reportOf_name_inj nodes entries); [done..|congruence].
    + intros suite' Hsuite' Hname'.
      apply (reportOf_name_inj nodes entries); [done..|congruence].
Qed.


(** C7.  [parseDuration] is a total function: it strips one trailing "s"
    and returns the value [ParseFloat] gives for the rest, dropping its
    error.  Given that [ParseFloat] reads "0.5" as one half and returns
    zero with its syntax error, "0.5s" yields 0.5, and "", "abc" and every
    input whose rest is malformed yield +0. *)
Theorem parseDuration_never_fails :
  (∀ s, snd (ParseFloat s) = Some ErrSyntax → fst (ParseFloat s) = f64.zero) →
  ParseFloat "0.5" = (f64.half, None) →
  snd (ParseFloat "abc") = Some ErrSyntax →
  (∀ d, parseDuration (d +:+ "s")
        = if String.eqb d "" then f64.zero else fst (ParseFloat d))
  ∧ (∀ dur, (∀ d, dur ≠ d +:+ "s") →
            parseDuration dur
            = if String.eqb dur "" then f64.zero else fst (ParseFloat dur))
  ∧ parseDuration "0.5s" = f64.half
  ∧ parseDuration "" = f64.zero
  ∧ parseDuration "abc" = f64.zero
  ∧ (∀ dur, snd (ParseFloat (strings.TrimSuffix dur "s")) = Some ErrSyntax →
            parseDuration dur = f64.zero).
Proof.
  intros Hsyntax Hhalf Habc.
  assert (∀ dur, parseDuration dur
                 = if String.eqb (strings.TrimSuffix dur "s") ""
                   then f64.zero
                   else fst (ParseFloat (strings.TrimSuffix dur "s")))
    as Hdef.
  { intros dur. unfold parseDuration.
    destruct (String.eqb _ ""); [done|]. by destruct (ParseFloat _). }
  split; [|split; [|split; [|split; [|split]]]].
  - intros d. by rewrite Hdef, TrimSuffix_append.
  - intros dur Hno. by rewrite Hdef, TrimSuffix_without.
  - rewrite Hdef. change (strings.TrimSuffix "0.5s" "s") with "0.5".
    simpl. by rewrite Hhalf.
  - done.
  - rewrite Hdef. change (strings.TrimSuffix "abc" "s") with "abc".
    simpl. by apply Hsyntax.
  - intros dur Herr. rewrite Hdef.
    destruct (String.eqb _ ""); [done|]. by apply Hsyntax.
Qed.

(** C8, as amended.  The time of every suite of the report is the
    floating-point sum, from +0 and from left to right, of the times of its
    cases taken in the order in which the walk visited them (the report
    lists the same cases sorted by name); these times are the parsed
    durations of the test-case nodes, and the durations of container and
    test-plan nodes have no influence on the report. *)
Theorem suite_time_sums_in_visiting_order
    (nodes : list TestNode.t) (entries : list (string * JUnitTestSuite.t)) :
  rangeOf (suiteMap (walked nodes)) entries →
  (∀ suite,
      suite ∈ JUnitTestSuites.TestSuites (reportOf entries nodes) →
      let visited :=
        filter (λ c, caseSuite c = JUnitTestSuite.Name suite)
               (eligibleCases nodes) in
      JUnitTestSuite.TestCases suite ≡ₚ caseRecord <$> visited
      ∧ JUnitTestSuite.Time suite = totalSuiteTime (caseRecord <$> visited)
      ∧ JUnitTestSuite.Time suite
        = fold_left f64.add
            ((λ c, parseDuration (TestNode.Duration (snd c))) <$> visited)
            f64.zero)
  ∧ (∀ d, reportOf entries (withSuiteDurations d <$> nodes)
          = reportOf entries nodes).
Proof.
  intros Hrange. split.
  - intros suite Hsuite visited.
    assert (JUnitTestSuite.Time suite
            = totalSuiteTime (caseRecord <$> visited)) as Htime.
    { destruct (reportOf_suite nodes entries suite Hrange Hsuite)
        as [[Hnone ->] | (s & Hs & E)].
      - subst visited. by rewrite Hnone.
      - subst visited. rewrite E. simpl.
        destruct (walked_lookup _ _ _ Hs) as [_ Hcases].
        rewrite E in Hcases. simpl in Hcases. by rewrite Hcases. }
    split; [|split; [done|]].
    + by apply (reportOf_cases nodes entries).
    + rewrite Htime. unfold totalSuiteTime.
      by rewrite !fold_left_over_fmap.
  - intros d. unfold reportOf.
    fold (walked (withSuiteDurations d <$> nodes)). fold (walked nodes).
    by rewrite walked_withSuiteDurations.
Qed.

(** C9, as amended.  Two runs of the assembly and serialization that start
    from the same contents of a mapping keyed by suite name return the same
    bytes, whatever order [range] takes and whatever the clock shows,
    provided the mapping is not empty or both runs read the same time; and
    the mapping the walk builds is keyed by suite name. *)
Theorem assembly_deterministic_up_to_clock
    (m : gmap string JUnitTestSuite.t) (t1 t2 : nat)
    (entries1 entries2 : list (string * JUnitTestSuite.t)) :
  keyedByName m →
  rangeOf m entries1 →
  rangeOf m entries2 →
  m ≠ ∅ ∨ Now t1 = Now t2 →
  xmlBytes (snd (assemble entries1 (World m t1)))
  = xmlBytes (snd (assemble entries2 (World m t2)))
  ∧ ∀ nodes, keyedByName (suiteMap (walked nodes)).
Proof.
  intros Hkeyed H1 H2 Hclock. split; [|apply walked_keyed].
  f_equal. rewrite !assemble_report. f_equal. simpl.
  destruct entries1 as [|e1 entries1], entries2 as [|e2 entries2].
  - destruct Hclock as [Hm | ->]; [|done].
    by destruct Hm; apply rangeOf_nil.
  - unfold rangeOf in *. rewrite <- H1 in H2.
    by apply Permutation_nil_r in H2.
  - unfold rangeOf in *. rewrite <- H2 in H1.
    by apply Permutation_nil_r in H1.
  - by apply (sortTestSuites_range m).
Qed.

(** C10.  No [testcase] element of any document has a [skipped] child:
    every case of the report has no skipped marker, and a case whose node
    has another result than "Failed" has no failure detail either, so that
    its element has no child at all. *)
Theorem no_skipped_element
    (nodes : list TestNode.t) (entries : list (string * JUnitTestSuite.t)) :
  rangeOf (suiteMap (walked nodes)) entries →
  Forall (λ suite,
            Forall (λ case,
                      Forall (λ e, xml.name e ≠ "skipped")
                             (xml.children case))
                   (xml.children suite))
         (xml.children (marshalTestSuites (reportOf entries nodes)))
  ∧ ∀ suite tc,
      suite ∈ JUnitTestSuites.TestSuites (reportOf entries nodes) →
      tc ∈ JUnitTestSuite.TestCases suite →
      JUnitTestCase.Skipped tc = None
      ∧ ∃ c, c ∈ eligibleCases nodes ∧ tc = caseRecord c
             ∧ (TestNode.Result (snd c) ≠ "Failed" →
                JUnitTestCase.Failure tc = None
                ∧ xml.children (marshalTestCase tc) = []).
Proof.
  intros Hrange.
  assert (∀ suite tc,
      suite ∈ JUnitTestSuites.TestSuites (reportOf entries nodes) →
      tc ∈ JUnitTestSuite.TestCases suite →
      JUnitTestCase.Skipped tc = None
      ∧ ∃ c, c ∈ eligibleCases nodes ∧ tc = caseRecord c
             ∧ (TestNode.Result (snd c) ≠ "Failed" →
                JUnitTestCase.Failure tc = None
                ∧ xml.children (marshalTestCase tc) = [])) as Hcases.
  { intros suite tc Hsuite Htc.
    destruct (reportOf_case nodes entries suite tc Hrange Hsuite Htc)
      as (c & Hc & -> & _).
    split; [done|]. exists c. split; [done|]. split; [done|].
    intros Hres. unfold caseRecord, testCaseOf, marshalTestCase. simpl.
    by destruct (String.eqb_spec (TestNode.Result (snd c)) "Failed"). }
  split; [|exact Hcases].
  simpl. apply Forall_fmap, Forall_forall. intros suite Hsuite. simpl.
  apply Forall_fmap, Forall_forall. intros tc Htc.
  destruct (Hcases suite tc Hsuite Htc) as [Hskipped _].
  unfold marshalTestCase. simpl. rewrite Hskipped. simpl.
  rewrite app_nil_r. destruct (JUnitTestCase.Failure tc); simpl.
  - by repeat constructor.
  - constructor.
Qed.

(** ** Further properties of the code *)

(** *** Counters *)

Lemma wrap_int_small (z : Z) :
  (- 2 ^ 63 ≤ z < 2 ^ 63)%Z → wrap_int z = z.
Proof.
  intros Hz. unfold wrap_int.
  rewrite Z.mod_small by lia. lia.
Qed.

(** Incrementing a wrapped counter is counting and wrapping once. *)
Lemma wrap_int_succ (z : Z) : wrap_int (wrap_int z + 1) = wrap_int (z + 1).
Proof.
  unfold wrap_int.
  replace ((z + 2 ^ 63) mod 2 ^ 64 - 2 ^ 63 + 1 + 2 ^ 63)%Z
    with ((z + 2 ^ 63) mod 2 ^ 64 + 1)%Z by lia.
  rewrite Zplus_mod_idemp_l. f_equal. f_equal. lia.
Qed.

Lemma failedCount_snoc (cases : list JUnitTestCase.t) (tc : JUnitTestCase.t) :
  failedCount (cases ++ [tc])
  = (failedCount cases
     + if JUnitTestCase.Failure tc is Some _ then 1 else 0)%nat.
Proof.
  unfold failedCount. rewrite filter_app, length_app. f_equal.
  destruct (JUnitTestCase.Failure tc) as [f|] eqn:Hf.
  - rewrite filter_cons_True by (rewrite Hf; eauto). done.
  - rewrite filter_cons_False; [done|]. rewrite Hf. by intros [? ?].
Qed.

Lemma failedCount_perm (cases cases' : list JUnitTestCase.t) :
  cases ≡ₚ cases' → failedCount cases = failedCount cases'.
Proof. intros H. unfold failedCount. by rewrite H. Qed.

Lemma testCaseOf_failure (node : TestNode.t) (classname : string) :
  is_Some (JUnitTestCase.Failure (testCaseOf node classname))
  ↔ TestNode.Result node = "Failed".
Proof.
  unfold testCaseOf. simpl.
  destruct (String.eqb_spec (TestNode.Result node) "Failed") as [E|E].
  - split; [done|eauto].
  - split; [by intros [? ?]|done].
Qed.

Lemma countsKept_processTestCase (node : TestNode.t) (classname : string)
    (w : world) :
  countsKept (suiteMap w) →
  countsKept (suiteMap (processTestCase node classname w)).
Proof.
  intros Hkept. destruct (eligible node) eqn:Hel;
    [|by rewrite processTestCase_skip].
  rewrite processTestCase_eligible by done. simpl.
  intros k suite. rewrite lookup_insert.
  case_decide as Hk; [|by apply Hkept]. intros [= <-]. simpl.
  set (old := default _ _).
  assert (JUnitTestSuite.Failures old
          = wrap_int (Z.of_nat (failedCount (JUnitTestSuite.TestCases old)))
          ∧ JUnitTestSuite.Errors old = 0%Z
          ∧ JUnitTestSuite.Tests old = 0%Z
          ∧ JUnitTestSuite.Time old = f64.zero) as (HF & HE & HT & HTi).
  { subst old. destruct (suiteMap w !! _) as [s|] eqn:Hs; simpl.
    - by apply (Hkept _ _ Hs).
    - done. }
  split; [|done]. rewrite failedCount_snoc, HF.
  unfold testCaseOf. simpl.
  destruct (String.eqb (TestNode.Result node) "Failed").
  - rewrite wrap_int_succ. f_equal. lia.
  - f_equal. lia.
Qed.

Lemma countsKept_fold (cs : list (list TestNode.t * TestNode.t)) (w : world) :
  countsKept (suiteMap w) → countsKept (suiteMap (fold_left step cs w)).
Proof.
  revert w. induction cs as [|c cs IH]; intros w Hw; [done|].
  simpl. by apply IH, countsKept_processTestCase.
Qed.

Lemma walked_countsKept (nodes : list TestNode.t) :
  countsKept (suiteMap (walked nodes)).
Proof.
  unfold walked. rewrite processTestNodes_reached.
  apply countsKept_fold. intros k suite. simpl. by rewrite lookup_empty.
Qed.

Lemma hasFailureChild_marshalTestCase (tc : JUnitTestCase.t) :
  hasFailureChild (marshalTestCase tc) = true
  ↔ is_Some (JUnitTestCase.Failure tc).
Proof.
  unfold hasFailureChild, marshalTestCase. simpl.
  destruct (JUnitTestCase.Failure tc) as [f|],
           (JUnitTestCase.Skipped tc) as [sk|]; simpl.
  all: split; try done; eauto; by intros [? ?].
Qed.

Lemma failedCount_document (cases : list JUnitTestCase.t) :
  length (filter (λ e, hasFailureChild e = true) (marshalTestCase <$> cases))
  = failedCount cases.
Proof.
  unfold failedCount. induction cases as [|tc cases IH]; [done|].
  rewrite fmap_cons.
  destruct (decide (is_Some (JUnitTestCase.Failure tc))) as [Hf|Hf].
  - rewrite !filter_cons_True; [simpl; by rewrite IH|done|].
    by apply hasFailureChild_marshalTestCase.
  - rewrite !filter_cons_False; [done|done|].
    by rewrite hasFailureChild_marshalTestCase.
Qed.

(** X1.  Count consistency.  In every document the [tests] attribute of a
    [testsuite] element is the number of its [testcase] children, and its
    [failures] attribute is the number of those children that have a
    [failure] child, as a 64-bit integer; that number is also the number
    of eligible nodes of the suite whose result is "Failed". *)
Theorem counts_match_children
    (nodes : list TestNode.t) (entries : list (string * JUnitTestSuite.t))
    (suite : JUnitTestSuite.t) :
  rangeOf (suiteMap (walked nodes)) entries →
  suite ∈ JUnitTestSuites.TestSuites (reportOf entries nodes) →
  let element := marshalTestSuite suite in
  let failing :=
    length (filter (λ e, hasFailureChild e = true) (xml.children element)) in
  xml.attr "tests" element
  = Some (xml.VInt (Z.of_nat (length (xml.children element))))
  ∧ xml.attr "failures" element
    = Some (xml.VInt (wrap_int (Z.of_nat failing)))
  ∧ ((Z.of_nat failing < 2 ^ 63)%Z →
     xml.attr "failures" element = Some (xml.VInt (Z.of_nat failing)))
  ∧ failing
    = length
        (filter (λ c, TestNode.Result (snd c) = "Failed")
           (filter (λ c, caseSuite c = JUnitTestSuite.Name suite)
                   (eligibleCases nodes))).
Proof.
  intros Hrange Hsuite element failing.
  assert (failing = failedCount (JUnitTestSuite.TestCases suite)) as Hfailing.
  { subst failing element. simpl. apply failedCount_document. }
  assert (JUnitTestSuite.Tests suite
          = Z.of_nat (length (JUnitTestSuite.TestCases suite))
          ∧ JUnitTestSuite.Failures suite
            = wrap_int (Z.of_nat
                (failedCount (JUnitTestSuite.TestCases suite))))
    as [Htests Hfailures].
  { destruct (reportOf_suite nodes entries suite Hrange Hsuite)
      as [[_ ->] | (s & Hs & ->)]; [done|].
    split.
    - simpl. f_equal. apply Permutation_length. symmetry.
      apply sortSlice_perm.
    - simpl. destruct (walked_countsKept nodes _ _ Hs) as [-> _].
      f_equal. f_equal. apply failedCount_perm. symmetry.
      apply sortSlice_perm. }
  split; [|split; [|split]].
  - subst element. unfold xml.attr. simpl. rewrite Htests, length_fmap. done.
  - subst element. unfold xml.attr. simpl.
    by rewrite Hfailures, Hfailing.
  - intros Hsmall. subst element. unfold xml.attr. simpl.
    rewrite Hfailures, Hfailing. rewrite wrap_int_small; [done|].
    rewrite <- Hfailing. lia.
  - rewrite Hfailing.
    rewrite (failedCount_perm _ _ (reportOf_cases nodes entries suite
                                      Hrange Hsuite)).
    unfold casesOfSuite, failedCount.
    induction (filter (λ c, caseSuite c = JUnitTestSuite.Name suite)
                      (eligibleCases nodes)) as [|c cs IH]; [done|].
    rewrite fmap_cons.
    destruct (decide (TestNode.Result (snd c) = "Failed")) as [Hres|Hres].
    + rewrite !filter_cons_True; [simpl; by rewrite IH|done|].
      by apply testCaseOf_failure.
    + rewrite !filter_cons_False; [done|done|].
      unfold caseRecord. by rewrite testCaseOf_failure.
Qed.

(** X2.  The [errors] attribute of every [testsuite] element is 0: no code
    path writes the error counter. *)
Theorem errors_always_zero
    (nodes : list TestNode.t) (entries : list (string * JUnitTestSuite.t))
    (suite : JUnitTestSuite.t) :
  rangeOf (suiteMap (walked nodes)) entries →
  suite ∈ JUnitTestSuites.TestSuites (reportOf entries nodes) →
  JUnitTestSuite.Errors suite = 0%Z
  ∧ xml.attr "errors" (marshalTestSuite suite) = Some (xml.VInt 0).
Proof.
  intros Hrange Hsuite.
  assert (JUnitTestSuite.Errors suite = 0%Z) as Herr.
  { destruct (reportOf_suite nodes entries suite Hrange Hsuite)
      as [[_ ->] | (s & Hs & ->)]; [done|].
    simpl. by destruct (walked_countsKept nodes _ _ Hs) as (_ & -> & _). }
  split; [done|]. unfold xml.attr. simpl. by rewrite Herr.
Qed.

(** *** Every case once *)

Lemma concat_fmap_perm {A B : Type} (f : A → list B) (l l' : list A) :
  l ≡ₚ l' → concat (f <$> l) ≡ₚ concat (f <$> l').
Proof.
  induction 1 as [|x l l' _ IH|x y l|l l' l'' _ IH1 _ IH2]; simpl.
  - done.
  - by rewrite IH.
  - rewrite !app_assoc. f_equiv. apply Permutation_app_comm.
  - by etrans.
Qed.

Lemma concat_fmap_pointwise {A B : Type} (f g : A → list B) (l : list A) :
  (∀ x, f x ≡ₚ g x) → concat (f <$> l) ≡ₚ concat (g <$> l).
Proof.
  intros Hfg. induction l as [|x l IH]; [done|]. simpl. by rewrite Hfg, IH.
Qed.

(** Writing a suite back with one more case adds that case to the cases of
    the mapping, whether the suite was there or not. *)
Lemma mappingCases_insert (m : gmap string JUnitTestSuite.t) (k : string)
    (suite' : JUnitTestSuite.t) (tc : JUnitTestCase.t) :
  JUnitTestSuite.TestCases suite'
  = from_option JUnitTestSuite.TestCases [] (m !! k) ++ [tc] →
  mappingCases (<[k := suite']> m) ≡ₚ mappingCases m ++ [tc].
Proof.
  intros Hcases. unfold mappingCases.
  destruct (m !! k) as [suite|] eqn:Hk; simpl in Hcases.
  - rewrite <- insert_delete_eq.
    rewrite (concat_fmap_perm _ _ _
               (map_to_list_insert (delete k m) k suite'
                  (lookup_delete_eq m k))).
    rewrite <- (concat_fmap_perm _ _ _ (map_to_list_delete m k suite Hk)).
    simpl. rewrite Hcases, <- !app_assoc. f_equiv.
    apply Permutation_app_comm.
  - rewrite (concat_fmap_perm _ _ _ (map_to_list_insert m k suite' Hk)).
    simpl. rewrite Hcases. simpl. apply Permutation_cons_append.
Qed.

Lemma mappingCases_processTestCase (node : TestNode.t) (classname : string)
    (w : world) :
  mappingCases (suiteMap (processTestCase node classname w))
  ≡ₚ mappingCases (suiteMap w)
     ++ (if eligible node then [testCaseOf node classname] else []).
Proof.
  destruct (eligible node) eqn:Hel.
  - rewrite processTestCase_eligible by done. simpl.
    apply mappingCases_insert. simpl.
    by destruct (suiteMap w !! _).
  - rewrite processTestCase_skip by done. by rewrite app_nil_r.
Qed.

Lemma mappingCases_fold (cs : list (list TestNode.t * TestNode.t))
    (w : world) :
  mappingCases (suiteMap (fold_left step cs w))
  ≡ₚ mappingCases (suiteMap w)
     ++ (caseRecord <$> filter (λ c, eligible (snd c) = true) cs).
Proof.
  revert w. induction cs as [|c cs IH]; intros w.
  - by rewrite app_nil_r.
  - simpl fold_left. rewrite IH.
    change (step w c)
      with (processTestCase (snd c) (dotJoin (containerNames (fst c))) w).
    rewrite mappingCases_processTestCase, <- app_assoc. f_equiv.
    destruct (eligible (snd c)) eqn:Hel.
    + by rewrite filter_cons_True by done.
    + by rewrite filter_cons_False by (simpl; congruence).
Qed.

Lemma walked_mappingCases (nodes : list TestNode.t) :
  mappingCases (suiteMap (walked nodes))
  ≡ₚ caseRecord <$> eligibleCases nodes.
Proof.
  unfold walked. rewrite processTestNodes_reached, mappingCases_fold.
  unfold mappingCases. simpl. by rewrite map_to_list_empty.
Qed.

(** X3.  Every eligible test case the walk reaches is in the report exactly
    once: the cases of all suites together are, up to order, the records of
    the eligible cases, and so there are as many of them. *)
Theorem every_case_once
    (nodes : list TestNode.t) (entries : list (string * JUnitTestSuite.t)) :
  rangeOf (suiteMap (walked nodes)) entries →
  reportCases (reportOf entries nodes) ≡ₚ caseRecord <$> eligibleCases nodes
  ∧ length (reportCases (reportOf entries nodes))
    = length (eligibleCases nodes).
Proof.
  intros Hrange.
  assert (reportCases (reportOf entries nodes)
          ≡ₚ caseRecord <$> eligibleCases nodes) as Hperm.
  { rewrite <- walked_mappingCases. unfold reportCases, reportOf.
    fold (walked nodes). rewrite assemble_report. simpl.
    destruct entries as [|e entries].
    - apply rangeOf_nil in Hrange. rewrite Hrange. unfold mappingCases.
      by rewrite map_to_list_empty.
    - rewrite (concat_fmap_perm _ _ _ (sortTestSuites_perm _)).
      rewrite <- !list_fmap_compose. unfold mappingCases.
      rewrite <- (concat_fmap_perm _ _ _ Hrange).
      apply concat_fmap_pointwise. intros [k s]. simpl.
      apply sortSlice_perm. }
  split; [done|]. by rewrite Hperm, length_fmap.
Qed.

(** *** The names of the suites *)

Lemma suiteNameOf_eligible (nodeIdentifier : string) :
  strings.Contains nodeIdentifier "/" = true →
  suiteNameOf nodeIdentifier ≠ ""
  ∧ strings.Contains (suiteNameOf nodeIdentifier) "/" = false.
Proof.
  intros (seg & rest & -> & Hseg)%Contains_decompose.
  change (String "/" rest) with ("/" +:+ rest).
  rewrite suiteNameOf_segment by done.
  destruct (String.eqb_spec seg "") as [->|Hne]; [done|]. done.
Qed.

(** A suite of the mapping has a case, and so an eligible node of its name. *)
Lemma walked_suite_has_case (nodes : list TestNode.t) (k : string)
    (s : JUnitTestSuite.t) :
  suiteMap (walked nodes) !! k = Some s →
  ∃ c, c ∈ eligibleCases nodes ∧ caseSuite c = k.
Proof.
  intros Hs. pose proof (walked_noEmptySuite nodes k s Hs) as Hne.
  destruct (walked_lookup nodes k s Hs) as [_ Hcases].
  rewrite Hcases in Hne. unfold casesOfSuite in Hne.
  destruct (filter (λ c, caseSuite c = k) (eligibleCases nodes))
    as [|c cs] eqn:Hf; [done|].
  assert (c ∈ filter (λ c, caseSuite c = k) (eligibleCases nodes)) as Hc
    by (rewrite Hf; left).
  apply list_elem_of_filter in Hc as [Hk Hc]. by exists c.
Qed.

(** X4.  The report is never empty, no two of its suites have the same name,
    and the names are the suite names of the eligible cases, or "XCTest"
    alone when there is no eligible case. *)
Theorem suite_names_distinct
    (nodes : list TestNode.t) (entries : list (string * JUnitTestSuite.t)) :
  rangeOf (suiteMap (walked nodes)) entries →
  let names :=
    JUnitTestSuite.Name <$> JUnitTestSuites.TestSuites (reportOf entries nodes)
  in
  names ≠ []
  ∧ NoDup names
  ∧ (eligibleCases nodes = [] → names = ["XCTest"])
  ∧ (eligibleCases nodes ≠ [] →
     ∀ k, k ∈ names ↔ ∃ c, c ∈ eligibleCases nodes ∧ caseSuite c = k).
Proof.
  intros Hrange names. subst names. split; [|split; [|split]].
  - unfold reportOf. fold (walked nodes). rewrite assemble_report. simpl.
    destruct entries as [|e entries]; [done|].
    intros Hnil. apply fmap_nil_inv in Hnil.
    pose proof (Permutation_length (sortTestSuites_perm
      ((λ e0, withTotals e0.2) <$> e :: entries))) as Hlen.
    rewrite Hnil, !length_fmap in Hlen. done.
  - unfold reportOf. fold (walked nodes). rewrite assemble_report. simpl.
    destruct entries as [|e entries]; [repeat constructor; set_solver|].
    rewrite sortTestSuites_perm, <- !list_fmap_compose.
    assert ((JUnitTestSuite.Name ∘ sortCases ∘ (λ e0, withTotals e0.2))
              <$> e :: entries = (e :: entries).*1) as ->.
    { apply list_fmap_ext. intros i [k s] Hi. simpl.
      apply (walked_keyed nodes), elem_of_map_to_list.
      rewrite <- Hrange. by eapply list_elem_of_lookup_2. }
    rewrite Hrange. apply NoDup_fst_map_to_list.
  - intros Hnone.
    rewrite (walked_no_eligible nodes Hnone) in Hrange. unfold rangeOf in Hrange.
    simpl in Hrange. rewrite map_to_list_empty in Hrange.
    apply Permutation_nil_r in Hrange. subst entries.
    unfold reportOf. by rewrite assemble_report.
  - intros Hsome k. split.
    + intros (suite & -> & Hsuite)%list_elem_of_fmap.
      destruct (reportOf_suite nodes entries suite Hrange Hsuite)
        as [[Hnone _] | (s & Hs & _)]; [done|].
      by eapply walked_suite_has_case.
    + intros (c & Hc & <-).
      destruct (reportOf_has_case nodes entries c Hrange Hc)
        as (suite & Hsuite & <- & _).
      by apply list_elem_of_fmap_2.
Qed.

(** X5.  The name of a suite of the report is never empty and has no "/" in
    it: an empty first segment is replaced by "UnknownSuite". *)
Theorem suite_names_well_formed
    (nodes : list TestNode.t) (entries : list (string * JUnitTestSuite.t))
    (suite : JUnitTestSuite.t) :
  rangeOf (suiteMap (walked nodes)) entries →
  suite ∈ JUnitTestSuites.TestSuites (reportOf entries nodes) →
  JUnitTestSuite.Name suite ≠ ""
  ∧ strings.Contains (JUnitTestSuite.Name suite) "/" = false.
Proof.
  intros Hrange Hsuite.
  destruct (reportOf_suite nodes entries suite Hrange Hsuite)
    as [[_ ->] | (s & Hs & _)]; [done|].
  destruct (walked_suite_has_case nodes _ s Hs) as (c & Hc & <-).
  apply list_elem_of_filter in Hc as [Hel _].
  by apply suiteNameOf_eligible.
Qed.

(** *** The clock *)

Lemma clockKept_processTestCase (node : TestNode.t) (classname : string)
    (w : world) :
  clockKept w → clockKept (processTestCase node classname w).
Proof.
  intros [Hsize Hstamp]. destruct (eligible node) eqn:Hel;
    [|by rewrite processTestCase_skip].
  rewrite processTestCase_eligible by done.
  destruct (suiteMap w !! suiteNameOf (TestNode.NodeIdentifier node))
    as [s|] eqn:Hs; simpl; (split; simpl).
  - by rewrite map_size_insert_Some.
  - intros k suite. rewrite lookup_insert.
    case_decide as Hk; [|by apply Hstamp]. intros [= <-]. simpl.
    by apply (Hstamp _ _ Hs).
  - by rewrite map_size_insert_None, Hsize.
  - intros k suite. rewrite lookup_insert. case_decide as Hk.
    + intros [= <-]. simpl. exists (ticks w). split; [lia|done].
    + intros (i & Hi & ->)%Hstamp. exists i. split; [lia|done].
Qed.

Lemma clockKept_fold (cs : list (list TestNode.t * TestNode.t)) (w : world) :
  clockKept w → clockKept (fold_left step cs w).
Proof.
  revert w. induction cs as [|c cs IH]; intros w Hw; [done|].
  simpl. by apply IH, clockKept_processTestCase.
Qed.

Lemma walked_clockKept (nodes : list TestNode.t) : clockKept (walked nodes).
Proof.
  unfold walked. rewrite processTestNodes_reached.
  apply clockKept_fold. split; simpl.
  - apply map_size_empty.
  - intros k suite. by rewrite lookup_empty.
Qed.

(** X6.  The clock is read once for every suite the walk creates, and once
    more for the default suite: the timestamp of every suite of a report
    with n suites is one of the first n readings. *)
Theorem clock_read_once_per_suite
    (nodes : list TestNode.t) (entries : list (string * JUnitTestSuite.t)) :
  rangeOf (suiteMap (walked nodes)) entries →
  ticks (walked nodes) = size (suiteMap (walked nodes))
  ∧ ∀ suite,
      suite ∈ JUnitTestSuites.TestSuites (reportOf entries nodes) →
      ∃ i, (i < length (JUnitTestSuites.TestSuites (reportOf entries nodes)))%nat
           ∧ JUnitTestSuite.Timestamp suite = Now i.
Proof.
  intros Hrange. destruct (walked_clockKept nodes) as [Hsize Hstamp].
  split; [done|]. intros suite Hsuite.
  destruct (reportOf_suite nodes entries suite Hrange Hsuite)
    as [[Hnone ->] | (s & Hs & ->)].
  - exists 0%nat. split; [|done].
    apply list_elem_of_lookup in Hsuite as [i Hi].
    apply lookup_lt_Some in Hi. lia.
  - destruct (Hstamp _ _ Hs) as (i & Hi & Hnow).
    exists i. split; [|done].
    unfold reportOf. fold (walked nodes). rewrite assemble_report. simpl.
    assert (length entries = ticks (walked nodes)) as Hlen.
    { rewrite <- Hsize, <- length_map_to_list.
      by apply Permutation_length. }
    destruct entries as [|e entries]; [simpl in Hlen; lia|].
    rewrite (Permutation_length (sortTestSuites_perm _)), !length_fmap. lia.
Qed.

(** *** The failure search *)

(** X7.  What the failure search returns is the fallback text or the display
    name of a node of failure-message kind below the node; whenever it is
    not the fallback text, the subtree does hold a failure message. *)
Theorem failure_message_sound (node : TestNode.t) :
  (extractFailureMessage node = TestFailed
   ∨ ∃ d, descendant d node
          ∧ TestNode.NodeType d = FailureMessageType
          ∧ TestNode.Name d = extractFailureMessage node)
  ∧ (extractFailureMessage node ≠ TestFailed →
     is_Some (firstFailureMessage node)).
Proof.
  split.
  - induction node as [children name nodeType dur res ident IH]
      using TestNode.t_ind.
    set (node := TestNode.Make children name nodeType dur res ident).
    simpl.
    assert (∀ cs, Forall (λ c, c ∈ children) cs →
              Forall (λ c, extractFailureMessage c = TestFailed
                           ∨ ∃ d, descendant d c
                                  ∧ TestNode.NodeType d = FailureMessageType
                                  ∧ TestNode.Name d = extractFailureMessage c)
                     cs →
              let found :=
                (fix loop (cs : list TestNode.t) : string :=
                   match cs with
                   | [] => TestFailed
                   | child :: rest =>
                       if String.eqb (TestNode.NodeType child)
                                     FailureMessageType
                       then TestNode.Name child
                       else
                         let message := extractFailureMessage child in
                         if negb (String.eqb message TestFailed) then message
                         else loop rest
                   end) cs in
              found = TestFailed
              ∨ ∃ d, descendant d node
                     ∧ TestNode.NodeType d = FailureMessageType
                     ∧ TestNode.Name d = found) as Hloop.
    { intros cs Hin Hcs. induction Hcs as [|c cs Hc _ IHcs]; [by left|].
      apply Forall_cons in Hin as [Hcin Hin]. simpl.
      destruct (String.eqb_spec (TestNode.NodeType c) FailureMessageType)
        as [Hkind|_].
      - right. exists c. split; [by apply descendant_child|done].
      - destruct (String.eqb_spec (extractFailureMessage c) TestFailed)
          as [_|Hne]; simpl; [by apply IHcs|].
        destruct Hc as [?|(d & Hd & Hkind & Hname)]; [done|].
        right. exists d. split; [|done].
        by apply (descendant_below d c node). }
    apply Hloop; [|exact IH]. by apply Forall_forall.
  - intros Hne. destruct (firstFailureMessage node) eqn:Hfirst; [eauto|].
    by apply extractFailureMessage_none in Hfirst.
Qed.

(** *** Nodes the walk looks through or passes over *)

Lemma isContainerType_not_test_case :
  isContainerType "Test Case" = false ∧ isTestPlanType "Test Case" = false.
Proof. done. Qed.

Lemma isTestPlanType_not_test_case (nodeType : string) :
  isTestPlanType nodeType = true → String.eqb nodeType "Test Case" = false.
Proof.
  intros H. destruct (String.eqb_spec nodeType "Test Case") as [->|]; done.
Qed.

Lemma isContainerType_not_plan (nodeType : string) :
  isContainerType nodeType = true → isTestPlanType nodeType = false.
Proof.
  intros Hc. destruct (isTestPlanType nodeType) eqn:Hp; [|done].
  apply isTestPlanType_not_container in Hp. congruence.
Qed.

Lemma processTestNode_splicePlans (node : TestNode.t) :
  ∀ (classname : string) (w : world),
    processTestNodes (splicePlans node) classname w
    = processTestNode node classname w.
Proof.
  induction node as [children name nodeType dur res ident IH]
    using TestNode.t_ind.
  intros classname w. unfold processTestNodes in *. simpl.
  destruct (isTestPlanType nodeType) eqn:Hp.
  - rewrite (isTestPlanType_not_container _ Hp),
            (isTestPlanType_not_test_case _ Hp).
    rewrite fold_left_flat_map. apply fold_left_Forall_ext.
    eapply Forall_impl; [exact IH|]. intros child Hchild w'. apply Hchild.
  - destruct (isContainerType nodeType) eqn:Hc; simpl.
    + rewrite Hc. rewrite fold_left_flat_map. apply fold_left_Forall_ext.
      eapply Forall_impl; [exact IH|]. intros child Hchild w'. apply Hchild.
    + by rewrite Hc, Hp.
Qed.

(** X8.  Test-plan nodes are transparent wherever they stand: replacing each
    of them by its children changes neither the mapping nor the report. *)
Theorem test_plans_transparent
    (nodes : list TestNode.t) (classname : string) (w : world)
    (entries : list (string * JUnitTestSuite.t)) :
  processTestNodes (flat_map splicePlans nodes) classname w
  = processTestNodes nodes classname w
  ∧ reportOf entries (flat_map splicePlans nodes) = reportOf entries nodes.
Proof.
  assert (∀ classname w,
            processTestNodes (flat_map splicePlans nodes) classname w
            = processTestNodes nodes classname w) as Hwalk.
  { intros cn w'. unfold processTestNodes. rewrite fold_left_flat_map.
    apply fold_left_Forall_ext, Forall_forall. intros node _ w''.
    apply (processTestNode_splicePlans node cn w''). }
  split; [apply Hwalk|]. unfold reportOf. by rewrite Hwalk.
Qed.

Lemma processTestNode_pruneIgnored (node : TestNode.t) :
  ∀ (classname : string) (w : world),
    processTestNodes (pruneIgnored node) classname w
    = processTestNode node classname w.
Proof.
  induction node as [children name nodeType dur res ident IH]
    using TestNode.t_ind.
  intros classname w. unfold processTestNodes in *. simpl.
  destruct (isContainerType nodeType) eqn:Hc; simpl.
  - rewrite Hc. rewrite fold_left_flat_map. apply fold_left_Forall_ext.
    eapply Forall_impl; [exact IH|]. intros child Hchild w'. apply Hchild.
  - destruct (isTestPlanType nodeType) eqn:Hp; simpl.
    + rewrite Hc, Hp, (isTestPlanType_not_test_case _ Hp).
      rewrite fold_left_flat_map. apply fold_left_Forall_ext.
      eapply Forall_impl; [exact IH|]. intros child Hchild w'. apply Hchild.
    + destruct (String.eqb_spec nodeType "Test Case") as [->|Hn]; simpl.
      * done.
      * done.
Qed.

(** X9.  Nodes of any other kind than container, test plan and test case
    are passed over with everything below them: taking them out of the tree
    changes neither the mapping nor the report. *)
Theorem other_kinds_ignored
    (nodes : list TestNode.t) (classname : string) (w : world)
    (entries : list (string * JUnitTestSuite.t)) :
  processTestNodes (flat_map pruneIgnored nodes) classname w
  = processTestNodes nodes classname w
  ∧ reportOf entries (flat_map pruneIgnored nodes) = reportOf entries nodes.
Proof.
  assert (∀ classname w,
            processTestNodes (flat_map pruneIgnored nodes) classname w
            = processTestNodes nodes classname w) as Hwalk.
  { intros cn w'. unfold processTestNodes. rewrite fold_left_flat_map.
    apply fold_left_Forall_ext, Forall_forall. intros node _ w''.
    apply (processTestNode_pruneIgnored node cn w''). }
  split; [apply Hwalk|]. unfold reportOf. by rewrite Hwalk.
Qed.

(** *** The walk only adds *)

Lemma continues_refl (w : world) : continues w w.
Proof. split; [done|]. intros k suite Hk. exists suite. by split. Qed.

Lemma continues_trans (w1 w2 w3 : world) :
  continues w1 w2 → continues w2 w3 → continues w1 w3.
Proof.
  intros [Ht12 H12] [Ht23 H23]. split; [lia|].
  intros k s1 Hk1.
  destruct (H12 _ _ Hk1) as (s2 & Hk2 & Hn2 & Hs2 & Hp2).
  destruct (H23 _ _ Hk2) as (s3 & Hk3 & Hn3 & Hs3 & Hp3).
  exists s3. split; [done|]. split; [congruence|]. split; [congruence|].
  by etrans.
Qed.

Lemma continues_processTestCase (node : TestNode.t) (classname : string)
    (w : world) :
  continues w (processTestCase node classname w).
Proof.
  destruct (eligible node) eqn:Hel;
    [|rewrite processTestCase_skip by done; apply continues_refl].
  rewrite processTestCase_eligible by done. split; simpl.
  - destruct (suiteMap w !! _); lia.
  - intros k suite Hk. rewrite lookup_insert. case_decide as Heq.
    + subst k. rewrite Hk. simpl. eexists. split; [done|]. simpl.
      split; [done|]. split; [done|]. by apply prefix_app_r.
    + exists suite. by split.
Qed.

Lemma continues_fold {A : Type} (f : world → A → world) (l : list A)
    (w : world) :
  (∀ w x, continues w (f w x)) → continues w (fold_left f l w).
Proof.
  intros Hf. revert w. induction l as [|x l IH]; intros w.
  - apply continues_refl.
  - simpl. eapply continues_trans; [apply Hf|apply IH].
Qed.

Lemma continues_processTestNode (node : TestNode.t) :
  ∀ (classname : string) (w : world),
    continues w (processTestNode node classname w).
Proof.
  induction node as [children name nodeType dur res ident IH]
    using TestNode.t_ind.
  assert (∀ classname w,
            continues w
              (fold_left (λ w child, processTestNode child classname w)
                         children w)) as Hchildren.
  { intros classname. induction IH as [|child rest Hchild _ IHrest];
      intros w; [apply continues_refl|].
    simpl. eapply continues_trans; [apply Hchild|apply IHrest]. }
  intros classname w. simpl.
  destruct (isContainerType nodeType); [apply Hchildren|].
  destruct (String.eqb nodeType "Test Case");
    [apply continues_processTestCase|].
  destruct (isTestPlanType nodeType); [apply Hchildren|apply continues_refl].
Qed.

(** X10.  The walk only adds to the mapping it is given, whatever it holds:
    no suite is removed or renamed, no timestamp is overwritten, and the
    cases a suite already had stay, in their order, in front of the cases
    that are added. *)
Theorem walk_only_appends
    (nodes : list TestNode.t) (classname : string) (w : world) :
  continues w (processTestNodes nodes classname w).
Proof.
  unfold processTestNodes. apply continues_fold.
  intros w' node. apply continues_processTestNode.
Qed.

(** *** Failure details *)

(** X11.  Every failure detail of a report has the type "Failure" and a
    content equal to its message, and the case that carries it comes from a
    node whose result is "Failed": its element is
    [<failure message=m type="Failure">m</failure>]. *)
Theorem failure_details_well_formed
    (nodes : list TestNode.t) (entries : list (string * JUnitTestSuite.t))
    (suite : JUnitTestSuite.t) (tc : JUnitTestCase.t) (f : JUnitFailure.t) :
  rangeOf (suiteMap (walked nodes)) entries →
  suite ∈ JUnitTestSuites.TestSuites (reportOf entries nodes) →
  tc ∈ JUnitTestSuite.TestCases suite →
  JUnitTestCase.Failure tc = Some f →
  JUnitFailure.Type' f = "Failure"
  ∧ JUnitFailure.Content f = JUnitFailure.Message f
  ∧ marshalFailure f
    = xml.Element "failure"
        [("message", xml.VString (JUnitFailure.Message f));
         ("type", xml.VString "Failure")]
        (JUnitFailure.Message f) []
  ∧ ∃ c, c ∈ eligibleCases nodes ∧ tc = caseRecord c
         ∧ TestNode.Result (snd c) = "Failed"
         ∧ JUnitFailure.Message f = extractFailureMessage (snd c).
Proof.
  intros Hrange Hsuite Htc Hf.
  destruct (reportOf_case nodes entries suite tc Hrange Hsuite Htc)
    as (c & Hc & -> & _).
  unfold caseRecord, testCaseOf in Hf. simpl in Hf.
  destruct (String.eqb_spec (TestNode.Result (snd c)) "Failed")
    as [Hres|Hres]; [|done].
  injection Hf as <-. simpl.
  split; [done|]. split; [done|]. split; [done|]. by exists c.
Qed.

(** *** The second test of [processTestCase] *)

(** X12.  An identifier that contains "/" splits into at least two parts, so
    the test on the number of parts never sends an eligible node away: the
    node is recorded under the first part. *)
Theorem second_guard_never_fires
    (node : TestNode.t) (classname : string) (w : world) :
  strings.Contains (TestNode.NodeIdentifier node) "/" = true →
  (length (strings.Split (TestNode.NodeIdentifier node) "/") <? 2)%nat = false
  ∧ is_Some (suiteMap (processTestCase node classname w)
               !! suiteNameOf (TestNode.NodeIdentifier node))
  ∧ processTestCase node classname w ≠ w.
Proof.
  intros Hel. split; [|split].
  - apply Nat.ltb_ge. by apply Split_length.
  - rewrite processTestCase_eligible by done. simpl.
    rewrite lookup_insert_eq. eauto.
  - rewrite processTestCase_eligible by done. intros Heq.
    apply (f_equal (λ w, casesAt w (suiteNameOf
                                      (TestNode.NodeIdentifier node)))) in Heq.
    unfold casesAt in Heq. simpl in Heq. rewrite lookup_insert_eq in Heq.
    simpl in Heq.
    destruct (suiteMap w !! _) as [s|]; simpl in Heq.
    + apply (f_equal length) in Heq. rewrite length_app in Heq.
      simpl in Heq. lia.
    + done.
Qed.

(** *** The mapping the walk builds *)

(** X13.  After the walk from the empty mapping, a key is in the mapping
    exactly when some eligible case has it as suite name; the suite under it
    bears the key as name, holds the cases of that name in the order of the
    visit, and has no totals yet. *)
Theorem walked_mapping (nodes : list TestNode.t) (k : string) :
  match suiteMap (walked nodes) !! k with
  | Some suite =>
      JUnitTestSuite.Name suite = k
      ∧ JUnitTestSuite.TestCases suite = casesOfSuite k nodes
      ∧ casesOfSuite k nodes ≠ []
      ∧ JUnitTestSuite.Tests suite = 0%Z
      ∧ JUnitTestSuite.Time suite = f64.zero
  | None => casesOfSuite k nodes = []
  end.
Proof.
  destruct (suiteMap (walked nodes) !! k) as [suite|] eqn:Hk.
  - destruct (walked_lookup nodes k suite Hk) as [Hname Hcases].
    destruct (walked_countsKept nodes k suite Hk) as (_ & _ & Htests & Htime).
    split; [done|]. split; [done|]. split; [|done].
    rewrite <- Hcases. by apply (walked_noEmptySuite nodes k).
  - rewrite <- walked_cases. unfold casesAt. by rewrite Hk.
Qed.

(** *** Durations that are not numbers *)

Lemma add_nan_l (x : float64) : f64.add S754_nan x = S754_nan.
Proof. done. Qed.

Lemma add_nan_r (x : float64) : f64.add x S754_nan = S754_nan.
Proof. by destruct x. Qed.

Lemma fold_add_nan (times : list float64) :
  fold_left f64.add times S754_nan = S754_nan.
Proof. induction times as [|t times IH]; [done|]. simpl. exact IH. Qed.

Lemma totalSuiteTime_nan (cases : list JUnitTestCase.t)
    (tc : JUnitTestCase.t) :
  tc ∈ cases → JUnitTestCase.Time tc = S754_nan →
  totalSuiteTime cases = S754_nan.
Proof.
  intros Hin Hnan. unfold totalSuiteTime.
  rewrite <- (fold_left_over_fmap f64.add JUnitTestCase.Time).
  generalize f64.zero.
  induction Hin as [tc cases|tc tc' cases _ IH]; intros total; simpl.
  - rewrite Hnan, add_nan_r. apply fold_add_nan.
  - by apply IH.
Qed.

(** X14.  A duration that parses to NaN spoils the total: a suite of the
    report with a case whose time is NaN has the time NaN. *)
Theorem nan_time_spoils_total
    (nodes : list TestNode.t) (entries : list (string * JUnitTestSuite.t))
    (suite : JUnitTestSuite.t) (tc : JUnitTestCase.t) :
  rangeOf (suiteMap (walked nodes)) entries →
  suite ∈ JUnitTestSuites.TestSuites (reportOf entries nodes) →
  tc ∈ JUnitTestSuite.TestCases suite →
  JUnitTestCase.Time tc = S754_nan →
  JUnitTestSuite.Time suite = S754_nan.
Proof.
  intros Hrange Hsuite Htc Hnan.
  destruct (reportOf_suite nodes entries suite Hrange Hsuite)
    as [[_ ->] | (s & Hs & ->)]; [by apply elem_of_nil in Htc|].
  simpl. apply (totalSuiteTime_nan _ tc); [|done].
  by rewrite <- (sortCases_cases (withTotals s)).
Qed.

End Converter.

(** ** The library models meet what the theorems assume *)

Lemma Slice_perm (A : Type) (less : A → A → bool) (x : list A) :
  sort.Slice less x ≡ₚ x.
Proof. apply merge_sort_Permutation. Qed.

Lemma Slice_sorted (A : Type) (less : A → A → bool) (x : list A) :
  sort.StrictWeakOrder less →
  StronglySorted (sort.notAfter less) (sort.Slice less x).
Proof.
  intros [Hirrefl Htrans Hincomp].
  assert (Transitive (sort.notAfter less)) as Htr.
  { intros a b c Hab Hbc. unfold sort.notAfter in *. by eapply Hincomp. }
  assert (Total (sort.notAfter less)) as Htot.
  { intros a b. unfold sort.notAfter.
    destruct (less b a) eqn:Hba; [|by left]. right.
    destruct (less a b) eqn:Hab; [|done].
    by rewrite <- (Hirrefl a), <- (Htrans _ _ _ Hab Hba). }
  by apply StronglySorted_merge_sort.
Qed.

Lemma ParseFloat_syntax (s : string) :
  snd (strconv.ParseFloat s) = Some ErrSyntax →
  fst (strconv.ParseFloat s) = f64.zero.
Proof.
  unfold strconv.ParseFloat. destruct (strconv.readSign s) as [neg s1].
  destruct (strconv.readDigits s1 false 0 0 0) as [[[mant [|nd]] frac] s2];
    [done|].
  destruct (strconv.readExponent s2) as [e|]; [|done].
  by destruct (strconv.decimalToFloat neg mant (e - frac)).
Qed.

(** ** The converter at work *)

(** The scenario of the specification with a failing case, end to end. *)
Example failing_scenario_bytes :
  ConvertXCResultJSONToJUnitXML
    strconv.ParseFloat clock (@sort.Slice) strconv.FormatFloat xml.EscapeText
    (λ _, inl (XCResultRoot.Make
                 (exampleTree "Failed" [failureMessage expectedMessage])))
    map_to_list ""
  = inl (xml.quoted
"<?xml version='1.0' encoding='UTF-8'?>
<testsuites>
  <testsuite name='MyTestSuite' tests='1' failures='1' errors='0' time='0.5' timestamp='2025-01-01T00:00:00Z'>
    <testcase name='testExample' classname='MyTestSuite.MyTestGroup' time='0.5'>
      <failure message='Test failed: expected true but got false' type='Failure'>Test failed: expected true but got false</failure>
    </testcase>
  </testsuite>
</testsuites>").
Proof. vm_compute. reflexivity. Qed.

(** The same scenario with a passing case, as a report. *)
Example passing_scenario_report :
  reportOf strconv.ParseFloat clock (@sort.Slice)
    (map_to_list
       (suiteMap (walked strconv.ParseFloat clock (exampleTree "Passed" []))))
    (exampleTree "Passed" [])
  = JUnitTestSuites.Make
      [JUnitTestSuite.Make "MyTestSuite" 1 0 0 f64.half "2025-01-01T00:00:00Z"
         [JUnitTestCase.Make "testExample" "MyTestSuite.MyTestGroup" f64.half
                             None None]].
Proof. vm_compute. reflexivity. Qed.

(** An overflowing duration is not malformed: it parses to +Inf, with the
    range error dropped like any other. *)
Example overflowing_duration :
  parseDuration strconv.ParseFloat "1e999s" = f64.inf false.
Proof. vm_compute. reflexivity. Qed.

(** ** The theorems at concrete inputs *)

(** The failing scenario: the first failure message is taken verbatim. *)
Lemma failure_message_first_found_witness :
  eligible (exampleCase "Failed" [failureMessage expectedMessage]) = true
  ∧ TestNode.Result (exampleCase "Failed" [failureMessage expectedMessage])
    = "Failed"
  ∧ JUnitTestCase.Failure
      (testCaseOf strconv.ParseFloat
         (exampleCase "Failed" [failureMessage expectedMessage])
         "MyTestSuite.MyTestGroup")
    = Some (JUnitFailure.Make expectedMessage "Failure" expectedMessage).
Proof.
  split; [reflexivity|]. split; [reflexivity|].
  exact (proj1 (proj2
    (failure_message_first_found strconv.ParseFloat clock
       (exampleCase "Failed" [failureMessage expectedMessage])
       "MyTestSuite.MyTestGroup" world0 eq_refl eq_refl))).
Defined.

(** The claim of C1 as it stands fails on [shadowedCase]: the first failure
    message a depth-first search finds is "Test failed", one level down, and
    the case reports the later message instead. *)
Lemma failure_message_shadowed :
  eligible shadowedCase = true
  ∧ TestNode.Result shadowedCase = "Failed"
  ∧ firstFailureMessage shadowedCase = Some "Test failed"
  ∧ JUnitTestCase.Failure
      (testCaseOf strconv.ParseFloat shadowedCase "MyTestSuite.MyTestGroup")
    = Some (JUnitFailure.Make "XCTAssertTrue failed" "Failure"
                              "XCTAssertTrue failed")
  ∧ JUnitFailure.Message <$>
      JUnitTestCase.Failure
        (testCaseOf strconv.ParseFloat shadowedCase "MyTestSuite.MyTestGroup")
    ≠ Some (default TestFailed (firstFailureMessage shadowedCase)).
Proof. repeat split; try reflexivity. vm_compute. discriminate. Qed.


Lemma default_suite_when_no_case_witness :
  eligibleCases [configurationNode "Test Scheme Action"] = []
  ∧ rangeOf (suiteMap (walked strconv.ParseFloat clock
                         [configurationNode "Test Scheme Action"])) []
  ∧ xml.children
      (marshalTestSuites
         (reportOf strconv.ParseFloat clock (@sort.Slice) []
                   [configurationNode "Test Scheme Action"]))
    = [marshalTestSuite (defaultSuite "2025-01-01T00:00:00Z")].
Proof.
  split; [reflexivity|]. split; [exact (perm_nil _)|].
  exact (f_equal xml.children
    (default_suite_when_no_case strconv.ParseFloat clock (@sort.Slice)
       Slice_perm [configurationNode "Test Scheme Action"] []
       eq_refl (perm_nil _))).
Defined.

Lemma identifier_without_separator_skipped_witness :
  TestNode.NodeType (configurationNode "") = "Test Case"
  ∧ strings.Contains (TestNode.NodeIdentifier (configurationNode "")) "/"
    = false
  ∧ TestNode.Result (configurationNode "") = "Failed"
  ∧ processTestNodes strconv.ParseFloat clock [configurationNode ""] ""
                     world0
    = world0.
Proof.
  split; [reflexivity|]. split; [reflexivity|]. split; [reflexivity|].
  exact (proj2
    (identifier_without_separator_skipped strconv.ParseFloat clock
       (configurationNode "") "" world0 eq_refl eq_refl)).
Defined.

Lemma suite_keyed_by_first_segment_witness :
  rangeOf (suiteMap (walked strconv.ParseFloat clock splitSuite))
          (map_to_list (suiteMap (walked strconv.ParseFloat clock splitSuite)))
  ∧ ([bundleA], caseOne) ∈ eligibleCases splitSuite
  ∧ ∃ suite,
      suite ∈ JUnitTestSuites.TestSuites
                (reportOf strconv.ParseFloat clock (@sort.Slice)
                   (map_to_list
                      (suiteMap (walked strconv.ParseFloat clock splitSuite)))
                   splitSuite)
      ∧ JUnitTestSuite.Name suite = "Shared"
      ∧ caseRecord strconv.ParseFloat ([bundleA], caseOne)
          ∈ JUnitTestSuite.TestCases suite
      ∧ caseRecord strconv.ParseFloat ([bundleB], caseTwo)
          ∈ JUnitTestSuite.TestCases suite.
Proof.
  assert (([bundleA], caseOne) ∈ eligibleCases splitSuite) as Hone
    by (vm_compute; constructor).
  assert (([bundleB], caseTwo) ∈ eligibleCases splitSuite) as Htwo
    by (vm_compute; constructor; constructor).
  split; [apply rangeOf_map_to_list|]. split; [exact Hone|].
  destruct (proj2
    (suite_keyed_by_first_segment strconv.ParseFloat clock (@sort.Slice)
       Slice_perm splitSuite _ ([bundleA], caseOne)
       (rangeOf_map_to_list _) Hone))
    as (suite & Hsuite & Hname & Hall & _).
  exists suite. split; [exact Hsuite|]. split; [exact Hname|].
  split; [exact (Hall _ Hone eq_refl)|exact (Hall _ Htwo eq_refl)].
Defined.


Lemma parseDuration_never_fails_witness :
  (∀ s, snd (strconv.ParseFloat s) = Some ErrSyntax →
        fst (strconv.ParseFloat s) = f64.zero)
  ∧ strconv.ParseFloat "0.5" = (f64.half, None)
  ∧ snd (strconv.ParseFloat "abc") = Some ErrSyntax
  ∧ parseDuration strconv.ParseFloat "0.5s" = f64.half
  ∧ parseDuration strconv.ParseFloat "" = f64.zero
  ∧ parseDuration strconv.ParseFloat "abc" = f64.zero.
Proof.
  split; [exact ParseFloat_syntax|]. split; [reflexivity|].
  split; [reflexivity|].
  destruct (parseDuration_never_fails strconv.ParseFloat
              ParseFloat_syntax eq_refl eq_refl)
    as (_ & _ & Hhalf & Hempty & Habc & _).
  exact (conj Hhalf (conj Hempty Habc)).
Defined.

Lemma suite_time_sums_in_visiting_order_witness :
  rangeOf (suiteMap (walked strconv.ParseFloat clock reversedTimes))
          (map_to_list (suiteMap (walked strconv.ParseFloat clock reversedTimes)))
  ∧ ∀ suite,
      suite ∈ JUnitTestSuites.TestSuites
                (reportOf strconv.ParseFloat clock (@sort.Slice)
                   (map_to_list
                      (suiteMap
                         (walked strconv.ParseFloat clock reversedTimes)))
                   reversedTimes) →
      JUnitTestSuite.Time suite
      = fold_left f64.add
          ((λ c, parseDuration strconv.ParseFloat (TestNode.Duration (snd c)))
             <$> filter (λ c, caseSuite c = JUnitTestSuite.Name suite)
                        (eligibleCases reversedTimes))
          f64.zero.
Proof.
  split; [apply rangeOf_map_to_list|].
  intros suite Hsuite.
  exact (proj2 (proj2
    (proj1
       (suite_time_sums_in_visiting_order strconv.ParseFloat clock
          (@sort.Slice) Slice_perm reversedTimes _ (rangeOf_map_to_list _))
       suite Hsuite))).
Defined.

(** The claim of C8 as it stands fails on [reversedTimes]: the suite time is
    0.1 + 0.2 + 0.3 = 0.6000000000000001, summed in visiting order, while the
    times of its cases as the report lists them sum to 0.3 + 0.2 + 0.1 = 0.6. *)
Lemma suite_time_not_sum_of_listed_cases :
  (λ suite,
     (JUnitTestCase.Name <$> JUnitTestSuite.TestCases suite,
      strconv.FormatFloat (JUnitTestSuite.Time suite),
      strconv.FormatFloat (totalSuiteTime (JUnitTestSuite.TestCases suite))))
    <$> JUnitTestSuites.TestSuites
          (reportOf strconv.ParseFloat clock (@sort.Slice)
             (map_to_list
                (suiteMap (walked strconv.ParseFloat clock reversedTimes)))
             reversedTimes)
  = [(["testA"; "testB"; "testC"], "0.6000000000000001", "0.6")]
  ∧ ¬ Forall (λ suite,
                JUnitTestSuite.Time suite
                = totalSuiteTime (JUnitTestSuite.TestCases suite))
        (JUnitTestSuites.TestSuites
           (reportOf strconv.ParseFloat clock (@sort.Slice)
              (map_to_list
                 (suiteMap (walked strconv.ParseFloat clock reversedTimes)))
              reversedTimes)).
Proof.
  split; [vm_compute; reflexivity|].
  intros H. vm_compute in H. inversion H as [|? ? Hhead _]. discriminate Hhead.
Qed.

Lemma assembly_deterministic_up_to_clock_witness :
  keyedByName
    (suiteMap (walked strconv.ParseFloat clock (splitSuite ++ reversedTimes)))
  ∧ rangeOf
      (suiteMap (walked strconv.ParseFloat clock (splitSuite ++ reversedTimes)))
      (map_to_list
         (suiteMap
            (walked strconv.ParseFloat clock (splitSuite ++ reversedTimes))))
  ∧ rangeOf
      (suiteMap (walked strconv.ParseFloat clock (splitSuite ++ reversedTimes)))
      (reverse
         (map_to_list
            (suiteMap
               (walked strconv.ParseFloat clock (splitSuite ++ reversedTimes)))))
  ∧ suiteMap (walked strconv.ParseFloat clock (splitSuite ++ reversedTimes))
    ≠ ∅
  ∧ xmlBytes strconv.FormatFloat xml.EscapeText
      (snd (assemble clock (@sort.Slice)
              (map_to_list
                 (suiteMap
                    (walked strconv.ParseFloat clock
                            (splitSuite ++ reversedTimes))))
              (World
                 (suiteMap
                    (walked strconv.ParseFloat clock
                            (splitSuite ++ reversedTimes)))
                 2)))
    = xmlBytes strconv.FormatFloat xml.EscapeText
        (snd (assemble clock (@sort.Slice)
                (reverse
                   (map_to_list
                      (suiteMap
                         (walked strconv.ParseFloat clock
                                 (splitSuite ++ reversedTimes)))))
                (World
                   (suiteMap
                      (walked strconv.ParseFloat clock
                              (splitSuite ++ reversedTimes)))
                   7))).
Proof.
  assert (suiteMap (walked strconv.ParseFloat clock
                           (splitSuite ++ reversedTimes)) ≠ ∅) as Hne.
  { intros H. apply (f_equal (λ m, m !! "Shared")) in H.
    vm_compute in H. discriminate H. }
  assert (rangeOf
      (suiteMap (walked strconv.ParseFloat clock (splitSuite ++ reversedTimes)))
      (reverse
         (map_to_list
            (suiteMap
               (walked strconv.ParseFloat clock
                       (splitSuite ++ reversedTimes)))))) as Hrev
    by (unfold rangeOf; apply reverse_Permutation).
  split; [apply walked_keyed|]. split; [apply rangeOf_map_to_list|].
  split; [exact Hrev|]. split; [exact Hne|].
  exact (proj1
    (assembly_deterministic_up_to_clock strconv.ParseFloat clock (@sort.Slice)
       strconv.FormatFloat xml.EscapeText Slice_perm Slice_sorted
       _ 2 7 _ _ (walked_keyed _ _ _) (rangeOf_map_to_list _) Hrev
       (or_introl Hne))).
Defined.

(** The claim of C9 as it stands fails on the empty mapping: the first run
    leaves the mapping empty, and the second run, one reading of the clock
    later, stamps the default suite with another time. *)
Lemma default_suite_timestamp_differs :
  rangeOf ∅ []
  ∧ suiteMap (fst (assemble clock (@sort.Slice) [] world0)) = ∅
  ∧ xmlBytes strconv.FormatFloat xml.EscapeText
      (snd (assemble clock (@sort.Slice) [] world0))
    = xml.quoted
"<?xml version='1.0' encoding='UTF-8'?>
<testsuites>
  <testsuite name='XCTest' tests='0' failures='0' errors='0' time='0' timestamp='2025-01-01T00:00:00Z'></testsuite>
</testsuites>"
  ∧ xmlBytes strconv.FormatFloat xml.EscapeText
      (snd (assemble clock (@sort.Slice) []
              (fst (assemble clock (@sort.Slice) [] world0))))
    = xml.quoted
"<?xml version='1.0' encoding='UTF-8'?>
<testsuites>
  <testsuite name='XCTest' tests='0' failures='0' errors='0' time='0' timestamp='2025-01-01T00:00:01Z'></testsuite>
</testsuites>"
  ∧ xmlBytes strconv.FormatFloat xml.EscapeText
      (snd (assemble clock (@sort.Slice) [] world0))
    ≠ xmlBytes strconv.FormatFloat xml.EscapeText
        (snd (assemble clock (@sort.Slice) []
                (fst (assemble clock (@sort.Slice) [] world0)))).
Proof.
  split; [exact (perm_nil _)|]. split; [vm_compute; reflexivity|].
  split; [vm_compute; reflexivity|]. split; [vm_compute; reflexivity|].
  apply String.eqb_neq. vm_compute. reflexivity.
Qed.

Lemma no_skipped_element_witness :
  rangeOf (suiteMap (walked strconv.ParseFloat clock skippedTree))
          (map_to_list (suiteMap (walked strconv.ParseFloat clock skippedTree)))
  ∧ Forall (λ suite,
              Forall (λ case,
                        Forall (λ e, xml.name e ≠ "skipped")
                               (xml.children case))
                     (xml.children suite))
      (xml.children
         (marshalTestSuites
            (reportOf strconv.ParseFloat clock (@sort.Slice)
               (map_to_list
                  (suiteMap (walked strconv.ParseFloat clock skippedTree)))
               skippedTree))).
Proof.
  split; [apply rangeOf_map_to_list|].
  exact (proj1
    (no_skipped_element strconv.ParseFloat clock (@sort.Slice) Slice_perm
       skippedTree _ (rangeOf_map_to_list _))).
Defined.

(** The assembly sorts the case slices of the mapping in place: run again on
    the mapping it leaves behind, it adds the times up in another order. *)
Example rerun_in_place :
  (λ w, (λ suite, strconv.FormatFloat (JUnitTestSuite.Time suite))
          <$> JUnitTestSuites.TestSuites
                (snd (assemble clock (@sort.Slice)
                        (map_to_list (suiteMap w)) w)))
    <$> [walked strconv.ParseFloat clock reversedTimes;
         fst (assemble clock (@sort.Slice)
                (map_to_list
                   (suiteMap (walked strconv.ParseFloat clock reversedTimes)))
                (walked strconv.ParseFloat clock reversedTimes))]
  = [["0.6000000000000001"]; ["0.6"]].
Proof. vm_compute. reflexivity. Qed.

(** A skipped case comes out as a plain passing case. *)
Example skipped_case_document :
  xml.children
    (marshalTestSuites
       (reportOf strconv.ParseFloat clock (@sort.Slice)
          (map_to_list
             (suiteMap (walked strconv.ParseFloat clock skippedTree)))
          skippedTree))
  = [xml.Element "testsuite"
       [("name", xml.VString "MyTestSuite"); ("tests", xml.VInt 1);
        ("failures", xml.VInt 0); ("errors", xml.VInt 0);
        ("time", xml.VFloat f64.zero);
        ("timestamp", xml.VString "2025-01-01T00:00:00Z")]
       ""
       [xml.Element "testcase"
          [("name", xml.VString "testSkipped");
           ("classname", xml.VString "MyTestSuite");
           ("time", xml.VFloat f64.zero)]
          "" []]].
Proof. vm_compute. reflexivity. Qed.

(** ** The further properties at concrete inputs *)

Lemma counts_match_children_witness :
  rangeOf (suiteMap (walked strconv.ParseFloat clock splitSuite)) (map_to_list (suiteMap (walked strconv.ParseFloat clock splitSuite)))
  ∧ (default (defaultSuite "") (head (JUnitTestSuites.TestSuites (reportOf strconv.ParseFloat clock (@sort.Slice) (map_to_list (suiteMap (walked strconv.ParseFloat clock splitSuite))) splitSuite)))) ∈ JUnitTestSuites.TestSuites (reportOf strconv.ParseFloat clock (@sort.Slice) (map_to_list (suiteMap (walked strconv.ParseFloat clock splitSuite))) splitSuite)
  ∧ xml.attr "tests" (marshalTestSuite (default (defaultSuite "") (head (JUnitTestSuites.TestSuites (reportOf strconv.ParseFloat clock (@sort.Slice) (map_to_list (suiteMap (walked strconv.ParseFloat clock splitSuite))) splitSuite))))) = Some (xml.VInt 2)
  ∧ xml.attr "failures" (marshalTestSuite (default (defaultSuite "") (head (JUnitTestSuites.TestSuites (reportOf strconv.ParseFloat clock (@sort.Slice) (map_to_list (suiteMap (walked strconv.ParseFloat clock splitSuite))) splitSuite))))) = Some (xml.VInt 1).
Proof.
  assert ((default (defaultSuite "") (head (JUnitTestSuites.TestSuites (reportOf strconv.ParseFloat clock (@sort.Slice) (map_to_list (suiteMap (walked strconv.ParseFloat clock splitSuite))) splitSuite)))) ∈ JUnitTestSuites.TestSuites (reportOf strconv.ParseFloat clock (@sort.Slice) (map_to_list (suiteMap (walked strconv.ParseFloat clock splitSuite))) splitSuite)) as Hin by (vm_compute; left).
  split; [apply rangeOf_map_to_list|]. split; [exact Hin|].
  destruct (counts_match_children strconv.ParseFloat clock (@sort.Slice)
              Slice_perm splitSuite _ _ (rangeOf_map_to_list _) Hin)
    as (Htests & Hfailures & _).
  split; [exact Htests|exact Hfailures].
Defined.

Lemma errors_always_zero_witness :
  rangeOf (suiteMap (walked strconv.ParseFloat clock splitSuite)) (map_to_list (suiteMap (walked strconv.ParseFloat clock splitSuite)))
  ∧ (default (defaultSuite "") (head (JUnitTestSuites.TestSuites (reportOf strconv.ParseFloat clock (@sort.Slice) (map_to_list (suiteMap (walked strconv.ParseFloat clock splitSuite))) splitSuite)))) ∈ JUnitTestSuites.TestSuites (reportOf strconv.ParseFloat clock (@sort.Slice) (map_to_list (suiteMap (walked strconv.ParseFloat clock splitSuite))) splitSuite)
  ∧ JUnitTestSuite.Errors (default (defaultSuite "") (head (JUnitTestSuites.TestSuites (reportOf strconv.ParseFloat clock (@sort.Slice) (map_to_list (suiteMap (walked strconv.ParseFloat clock splitSuite))) splitSuite)))) = 0%Z.
Proof.
  assert ((default (defaultSuite "") (head (JUnitTestSuites.TestSuites (reportOf strconv.ParseFloat clock (@sort.Slice) (map_to_list (suiteMap (walked strconv.ParseFloat clock splitSuite))) splitSuite)))) ∈ JUnitTestSuites.TestSuites (reportOf strconv.ParseFloat clock (@sort.Slice) (map_to_list (suiteMap (walked strconv.ParseFloat clock splitSuite))) splitSuite)) as Hin by (vm_compute; left).
  split; [apply rangeOf_map_to_list|]. split; [exact Hin|].
  exact (proj1 (errors_always_zero strconv.ParseFloat clock (@sort.Slice)
                  Slice_perm splitSuite _ _ (rangeOf_map_to_list _) Hin)).
Defined.

Lemma every_case_once_witness :
  rangeOf (suiteMap (walked strconv.ParseFloat clock (splitSuite ++ reversedTimes))) (map_to_list (suiteMap (walked strconv.ParseFloat clock (splitSuite ++ reversedTimes))))
  ∧ length (reportCases (reportOf strconv.ParseFloat clock (@sort.Slice) (map_to_list (suiteMap (walked strconv.ParseFloat clock (splitSuite ++ reversedTimes)))) (splitSuite ++ reversedTimes))) = 5%nat.
Proof.
  split; [apply rangeOf_map_to_list|].
  exact (proj2 (every_case_once strconv.ParseFloat clock (@sort.Slice)
                  Slice_perm (splitSuite ++ reversedTimes) _ (rangeOf_map_to_list _))).
Defined.

Lemma suite_names_distinct_witness :
  rangeOf (suiteMap (walked strconv.ParseFloat clock (splitSuite ++ reversedTimes))) (map_to_list (suiteMap (walked strconv.ParseFloat clock (splitSuite ++ reversedTimes))))
  ∧ NoDup (JUnitTestSuite.Name <$> JUnitTestSuites.TestSuites (reportOf strconv.ParseFloat clock (@sort.Slice) (map_to_list (suiteMap (walked strconv.ParseFloat clock (splitSuite ++ reversedTimes)))) (splitSuite ++ reversedTimes))).
Proof.
  split; [apply rangeOf_map_to_list|].
  exact (proj1 (proj2
    (suite_names_distinct strconv.ParseFloat clock (@sort.Slice)
       Slice_perm Slice_sorted (splitSuite ++ reversedTimes) _ (rangeOf_map_to_list _)))).
Defined.

Lemma suite_names_well_formed_witness :
  rangeOf (suiteMap (walked strconv.ParseFloat clock unnamedSuiteTree)) (map_to_list (suiteMap (walked strconv.ParseFloat clock unnamedSuiteTree)))
  ∧ (default (defaultSuite "") (head (JUnitTestSuites.TestSuites (reportOf strconv.ParseFloat clock (@sort.Slice) (map_to_list (suiteMap (walked strconv.ParseFloat clock unnamedSuiteTree))) unnamedSuiteTree)))) ∈ JUnitTestSuites.TestSuites (reportOf strconv.ParseFloat clock (@sort.Slice) (map_to_list (suiteMap (walked strconv.ParseFloat clock unnamedSuiteTree))) unnamedSuiteTree)
  ∧ JUnitTestSuite.Name (default (defaultSuite "") (head (JUnitTestSuites.TestSuites (reportOf strconv.ParseFloat clock (@sort.Slice) (map_to_list (suiteMap (walked strconv.ParseFloat clock unnamedSuiteTree))) unnamedSuiteTree)))) ≠ ""
  ∧ strings.Contains (JUnitTestSuite.Name (default (defaultSuite "") (head (JUnitTestSuites.TestSuites (reportOf strconv.ParseFloat clock (@sort.Slice) (map_to_list (suiteMap (walked strconv.ParseFloat clock unnamedSuiteTree))) unnamedSuiteTree))))) "/" = false.
Proof.
  assert ((default (defaultSuite "") (head (JUnitTestSuites.TestSuites (reportOf strconv.ParseFloat clock (@sort.Slice) (map_to_list (suiteMap (walked strconv.ParseFloat clock unnamedSuiteTree))) unnamedSuiteTree)))) ∈ JUnitTestSuites.TestSuites (reportOf strconv.ParseFloat clock (@sort.Slice) (map_to_list (suiteMap (walked strconv.ParseFloat clock unnamedSuiteTree))) unnamedSuiteTree)) as Hin by (vm_compute; left).
  split; [apply rangeOf_map_to_list|]. split; [exact Hin|].
  exact (suite_names_well_formed strconv.ParseFloat clock (@sort.Slice)
           Slice_perm unnamedSuiteTree _ _ (rangeOf_map_to_list _) Hin).
Defined.

Lemma clock_read_once_per_suite_witness :
  rangeOf (suiteMap (walked strconv.ParseFloat clock (splitSuite ++ reversedTimes))) (map_to_list (suiteMap (walked strconv.ParseFloat clock (splitSuite ++ reversedTimes))))
  ∧ ticks (walked strconv.ParseFloat clock (splitSuite ++ reversedTimes)) = size (suiteMap (walked strconv.ParseFloat clock (splitSuite ++ reversedTimes))).
Proof.
  split; [apply rangeOf_map_to_list|].
  exact (proj1 (clock_read_once_per_suite strconv.ParseFloat clock
                  (@sort.Slice) Slice_perm (splitSuite ++ reversedTimes) _
                  (rangeOf_map_to_list _))).
Defined.

Lemma failure_details_well_formed_witness :
  rangeOf (suiteMap (walked strconv.ParseFloat clock (exampleTree "Failed" [failureMessage expectedMessage]))) (map_to_list (suiteMap (walked strconv.ParseFloat clock (exampleTree "Failed" [failureMessage expectedMessage]))))
  ∧ (default (defaultSuite "") (head (JUnitTestSuites.TestSuites (reportOf strconv.ParseFloat clock (@sort.Slice) (map_to_list (suiteMap (walked strconv.ParseFloat clock (exampleTree "Failed" [failureMessage expectedMessage])))) (exampleTree "Failed" [failureMessage expectedMessage]))))) ∈ JUnitTestSuites.TestSuites (reportOf strconv.ParseFloat clock (@sort.Slice) (map_to_list (suiteMap (walked strconv.ParseFloat clock (exampleTree "Failed" [failureMessage expectedMessage])))) (exampleTree "Failed" [failureMessage expectedMessage]))
  ∧ (default (JUnitTestCase.Make "" "" f64.zero None None) (head (JUnitTestSuite.TestCases (default (defaultSuite "") (head (JUnitTestSuites.TestSuites (reportOf strconv.ParseFloat clock (@sort.Slice) (map_to_list (suiteMap (walked strconv.ParseFloat clock (exampleTree "Failed" [failureMessage expectedMessage])))) (exampleTree "Failed" [failureMessage expectedMessage])))))))) ∈ JUnitTestSuite.TestCases (default (defaultSuite "") (head (JUnitTestSuites.TestSuites (reportOf strconv.ParseFloat clock (@sort.Slice) (map_to_list (suiteMap (walked strconv.ParseFloat clock (exampleTree "Failed" [failureMessage expectedMessage])))) (exampleTree "Failed" [failureMessage expectedMessage])))))
  ∧ JUnitTestCase.Failure (default (JUnitTestCase.Make "" "" f64.zero None None) (head (JUnitTestSuite.TestCases (default (defaultSuite "") (head (JUnitTestSuites.TestSuites (reportOf strconv.ParseFloat clock (@sort.Slice) (map_to_list (suiteMap (walked strconv.ParseFloat clock (exampleTree "Failed" [failureMessage expectedMessage])))) (exampleTree "Failed" [failureMessage expectedMessage]))))))))
    = Some (JUnitFailure.Make expectedMessage "Failure" expectedMessage)
  ∧ marshalFailure
      (JUnitFailure.Make expectedMessage "Failure" expectedMessage)
    = xml.Element "failure"
        [("message", xml.VString expectedMessage);
         ("type", xml.VString "Failure")]
        expectedMessage [].
Proof.
  assert ((default (defaultSuite "") (head (JUnitTestSuites.TestSuites (reportOf strconv.ParseFloat clock (@sort.Slice) (map_to_list (suiteMap (walked strconv.ParseFloat clock (exampleTree "Failed" [failureMessage expectedMessage])))) (exampleTree "Failed" [failureMessage expectedMessage]))))) ∈ JUnitTestSuites.TestSuites (reportOf strconv.ParseFloat clock (@sort.Slice) (map_to_list (suiteMap (walked strconv.ParseFloat clock (exampleTree "Failed" [failureMessage expectedMessage])))) (exampleTree "Failed" [failureMessage expectedMessage]))) as Hin by (vm_compute; left).
  assert ((default (JUnitTestCase.Make "" "" f64.zero None None) (head (JUnitTestSuite.TestCases (default (defaultSuite "") (head (JUnitTestSuites.TestSuites (reportOf strconv.ParseFloat clock (@sort.Slice) (map_to_list (suiteMap (walked strconv.ParseFloat clock (exampleTree "Failed" [failureMessage expectedMessage])))) (exampleTree "Failed" [failureMessage expectedMessage])))))))) ∈ JUnitTestSuite.TestCases (default (defaultSuite "") (head (JUnitTestSuites.TestSuites (reportOf strconv.ParseFloat clock (@sort.Slice) (map_to_list (suiteMap (walked strconv.ParseFloat clock (exampleTree "Failed" [failureMessage expectedMessage])))) (exampleTree "Failed" [failureMessage expectedMessage])))))) as Htc by (vm_compute; left).
  split; [apply rangeOf_map_to_list|]. split; [exact Hin|].
  split; [exact Htc|]. split; [reflexivity|].
  exact (proj1 (proj2 (proj2
    (failure_details_well_formed strconv.ParseFloat clock (@sort.Slice)
       Slice_perm (exampleTree "Failed" [failureMessage expectedMessage]) _ _ _
       (JUnitFailure.Make expectedMessage "Failure" expectedMessage)
       (rangeOf_map_to_list _) Hin Htc eq_refl)))).
Defined.

Lemma second_guard_never_fires_witness :
  strings.Contains (TestNode.NodeIdentifier caseOne) "/" = true
  ∧ (length (strings.Split (TestNode.NodeIdentifier caseOne) "/") <? 2)%nat
    = false.
Proof.
  split; [reflexivity|].
  exact (proj1 (second_guard_never_fires strconv.ParseFloat clock caseOne
                  "BundleA" world0 eq_refl)).
Defined.

Lemma nan_time_spoils_total_witness :
  rangeOf (suiteMap (walked strconv.ParseFloatNaN clock nanTree)) (map_to_list (suiteMap (walked strconv.ParseFloatNaN clock nanTree)))
  ∧ (default (defaultSuite "") (head (JUnitTestSuites.TestSuites (reportOf strconv.ParseFloatNaN clock (@sort.Slice) (map_to_list (suiteMap (walked strconv.ParseFloatNaN clock nanTree))) nanTree)))) ∈ JUnitTestSuites.TestSuites (reportOf strconv.ParseFloatNaN clock (@sort.Slice) (map_to_list (suiteMap (walked strconv.ParseFloatNaN clock nanTree))) nanTree)
  ∧ (default (JUnitTestCase.Make "" "" f64.zero None None) (head (JUnitTestSuite.TestCases (default (defaultSuite "") (head (JUnitTestSuites.TestSuites (reportOf strconv.ParseFloatNaN clock (@sort.Slice) (map_to_list (suiteMap (walked strconv.ParseFloatNaN clock nanTree))) nanTree))))))) ∈ JUnitTestSuite.TestCases (default (defaultSuite "") (head (JUnitTestSuites.TestSuites (reportOf strconv.ParseFloatNaN clock (@sort.Slice) (map_to_list (suiteMap (walked strconv.ParseFloatNaN clock nanTree))) nanTree))))
  ∧ JUnitTestCase.Time (default (JUnitTestCase.Make "" "" f64.zero None None) (head (JUnitTestSuite.TestCases (default (defaultSuite "") (head (JUnitTestSuites.TestSuites (reportOf strconv.ParseFloatNaN clock (@sort.Slice) (map_to_list (suiteMap (walked strconv.ParseFloatNaN clock nanTree))) nanTree))))))) = S754_nan
  ∧ JUnitTestSuite.Time (default (defaultSuite "") (head (JUnitTestSuites.TestSuites (reportOf strconv.ParseFloatNaN clock (@sort.Slice) (map_to_list (suiteMap (walked strconv.ParseFloatNaN clock nanTree))) nanTree)))) = S754_nan.
Proof.
  assert ((default (defaultSuite "") (head (JUnitTestSuites.TestSuites (reportOf strconv.ParseFloatNaN clock (@sort.Slice) (map_to_list (suiteMap (walked strconv.ParseFloatNaN clock nanTree))) nanTree)))) ∈ JUnitTestSuites.TestSuites (reportOf strconv.ParseFloatNaN clock (@sort.Slice) (map_to_list (suiteMap (walked strconv.ParseFloatNaN clock nanTree))) nanTree)) as Hin by (vm_compute; left).
  assert ((default (JUnitTestCase.Make "" "" f64.zero None None) (head (JUnitTestSuite.TestCases (default (defaultSuite "") (head (JUnitTestSuites.TestSuites (reportOf strconv.ParseFloatNaN clock (@sort.Slice) (map_to_list (suiteMap (walked strconv.ParseFloatNaN clock nanTree))) nanTree))))))) ∈ JUnitTestSuite.TestCases (default (defaultSuite "") (head (JUnitTestSuites.TestSuites (reportOf strconv.ParseFloatNaN clock (@sort.Slice) (map_to_list (suiteMap (walked strconv.ParseFloatNaN clock nanTree))) nanTree))))) as Htc by (vm_compute; left).
  split; [apply rangeOf_map_to_list|]. split; [exact Hin|].
  split; [exact Htc|]. split; [reflexivity|].
  exact (nan_time_spoils_total strconv.ParseFloatNaN clock (@sort.Slice)
           Slice_perm nanTree _ _ _ (rangeOf_map_to_list _) Hin Htc eq_refl).
Defined.
